(** * Darktable MCP server (tools/mcp_server): a shallow embedding

    Python values that travel through the server are JSON-shaped; a [dict]
    is an association list (lookup takes the first binding), [None] is
    [JNull].  Strings are modelled as ASCII strings and [str.lower] as ASCII
    lower-casing.  Exceptions are a closed type [pyexc] of the classes the
    code raises or catches; the effects are threaded through a state and
    error monad whose state is the log of outbound HTTP calls to providers. *)

From Stdlib Require Import String Ascii List ZArith NArith QArith Bool Lia.
Import ListNotations.
Close Scope Q_scope.
Open Scope string_scope.
Set Warnings "-register-all".

(** ** Values *)

Inductive json : Type :=
| JNull : json
| JBool : bool -> json
| JInt : Z -> json
| JFloat : Q -> json
| JStr : string -> json
| JList : list json -> json
| JDict : list (string * json) -> json.

(** Python truthiness ([bool(x)]). *)
Definition truthy (v : json) : bool :=
  match v with
  | JNull => false
  | JBool b => b
  | JInt z => negb (Z.eqb z 0)
  | JFloat q => negb (Qeq_bool q (0 # 1))
  | JStr s => negb (String.eqb s "")
  | JList l => negb (Nat.eqb (List.length l) 0)
  | JDict d => negb (Nat.eqb (List.length d) 0)
  end.

(** [x or y] *)
Definition py_or (x y : json) : json := if truthy x then x else y.

(** [type(x).__name__] *)
Definition py_type_name (v : json) : string :=
  match v with
  | JNull => "NoneType"
  | JBool _ => "bool"
  | JInt _ => "int"
  | JFloat _ => "float"
  | JStr _ => "str"
  | JList _ => "list"
  | JDict _ => "dict"
  end.

Fixpoint assoc_get (k : string) (d : list (string * json)) : option json :=
  match d with
  | [] => None
  | (k', v) :: d' => if String.eqb k k' then Some v else assoc_get k d'
  end.

(** [key in d] *)
Definition dict_has (d : list (string * json)) (k : string) : bool :=
  match assoc_get k d with Some _ => true | None => false end.

(** ** Python exceptions *)

(** The classes the code raises or catches.  [JSONDecodeError] and
    [UnicodeDecodeError] are subclasses of [ValueError]; [LLMClientError]
    is the provider error ([RuntimeError] subclass of clients.py). *)
Inductive pyexc : Type :=
| ValueError : string -> pyexc
| JSONDecodeError : string -> pyexc           (* str(exc) *)
| UnicodeDecodeError : string -> pyexc
| LLMClientError : string -> pyexc
| AttributeError : string -> pyexc
| TypeError : string -> pyexc
| OSError : string -> pyexc
| OtherError : string -> string -> pyexc.    (* class name, str(exc) *)

(** [isinstance(exc, ValueError)] *)
Definition is_value_error (e : pyexc) : bool :=
  match e with
  | ValueError _ | JSONDecodeError _ | UnicodeDecodeError _ => true
  | _ => false
  end.

(** [str(exc)] *)
Definition exc_str (e : pyexc) : string :=
  match e with
  | ValueError m | JSONDecodeError m | UnicodeDecodeError m
  | LLMClientError m | AttributeError m | TypeError m | OSError m => m
  | OtherError _ m => m
  end.

Definition no_attribute (v : json) (attr : string) : pyexc :=
  AttributeError ("'" ++ py_type_name v ++ "' object has no attribute '" ++ attr ++ "'").

(** ** Strings *)

Definition ascii_lower (c : ascii) : ascii :=
  let n := nat_of_ascii c in
  if Nat.leb 65 n && Nat.leb n 90 then ascii_of_nat (n + 32)%nat else c.

(** [str.lower] *)
Fixpoint lower (s : string) : string :=
  match s with
  | EmptyString => EmptyString
  | String c s' => String (ascii_lower c) (lower s')
  end.

(** [str.startswith] *)
Definition startswith (s p : string) : bool := String.prefix p s.

(** [s.partition(",")[2]]: the text after the first comma, "" if none. *)
Fixpoint after_comma (s : string) : string :=
  match s with
  | EmptyString => EmptyString
  | String c s' => if Ascii.eqb c ","%char then s' else after_comma s'
  end.

(** [s.rstrip('/')] *)
Definition rstrip_slash (s : string) : string :=
  string_of_list_ascii
    (rev (let fix drop l := match l with
                            | c :: l' => if Ascii.eqb c "/"%char then drop l' else l
                            | [] => []
                            end in drop (rev (list_ascii_of_string s)))).

Definition digit_char (n : N) : ascii := ascii_of_N (48 + n).

Fixpoint N_digits (fuel : nat) (n : N) (acc : string) : string :=
  match fuel with
  | O => acc
  | S f => let acc' := String (digit_char (N.modulo n 10)) acc in
           if N.ltb n 10 then acc' else N_digits f (N.div n 10) acc'
  end.

(** [str(z)] for an int *)
Definition Z_to_dec (z : Z) : string :=
  match z with
  | Z.neg p => "-" ++ N_digits (Pos.to_nat p) (Npos p) ""
  | _ => N_digits (Z.to_nat z + 1) (Z.to_N z) ""
  end.

(** ** Outbound HTTP calls and the effect monad *)

(** One call of [_post_json(url, payload, headers, timeout)]. *)
Record http_call := mk_call {
  call_url : string;
  call_payload : json;
  call_headers : list (string * string)
}.

(** What [urlopen] and the decoding of its body produce:
    [TJson] the decoded JSON reply, [THTTPError code message] an
    [urllib.error.HTTPError] (message = error body or reason),
    [TURLError reason] another [URLError], [TRaise e] any other exception
    raised in the [with] block (bad UTF-8, [JSONDecodeError], timeouts). *)
Inductive transport :=
| TJson : json -> transport
| THTTPError : Z -> string -> transport
| TURLError : string -> transport
| TRaise : pyexc -> transport.

Inductive result (A : Type) :=
| Ok : A -> result A
| Err : pyexc -> result A.
Arguments Ok {A} _.
Arguments Err {A} _.

(** State: the calls made to providers so far, most recent first. *)
Definition M (A : Type) := list http_call -> result A * list http_call.

Definition ret {A} (x : A) : M A := fun s => (Ok x, s).
Definition raise {A} (e : pyexc) : M A := fun s => (Err e, s).
Definition bind {A B} (m : M A) (k : A -> M B) : M B :=
  fun s => match m s with
           | (Ok x, s') => k x s'
           | (Err e, s') => (Err e, s')
           end.

Notation "x <- m ;; k" := (bind m (fun x => k))
  (at level 61, m at next level, right associativity).
Notation "' p <- m ;; k" := (bind m (fun x => match x with p => k end))
  (at level 61, p pattern, m at next level, right associativity).

(** [d.get(key, default)]; AttributeError when [d] is not a dict. *)
Definition py_get_default (d : json) (key : string) (dflt : json) : M json :=
  match d with
  | JDict kv => match assoc_get key kv with Some v => ret v | None => ret dflt end
  | _ => raise (no_attribute d "get")
  end.

Definition py_get (d : json) (key : string) : M json := py_get_default d key JNull.

(** ** config.py *)

Record ProviderConfig := mk_provider_config {
  base_url : string;
  api_key : option string;
  default_model : option string;
  timeout : Q
}.

Record MCPServerConfig := mk_server_config {
  host : string;
  port : Z;
  default_provider : string;
  lm_studio : ProviderConfig;
  ollama : ProviderConfig
}.

Definition opt_str (o : option string) : json :=
  match o with Some s => JStr s | None => JNull end.

Definition to_dict (p : ProviderConfig) : json :=
  JDict [("base_url", JStr (base_url p));
         ("api_key", if truthy (opt_str (api_key p)) then JStr "<hidden>" else JNull);
         ("default_model", opt_str (default_model p));
         ("timeout", JFloat (timeout p))].

Definition as_dict (c : MCPServerConfig) : json :=
  JDict [("host", JStr (host c));
         ("port", JInt (port c));
         ("default_provider", JStr (default_provider c));
         ("providers", JDict [("lmstudio", to_dict (lm_studio c));
                              ("ollama", to_dict (ollama c))])].

(** The configuration [MCPServerConfig()] builds with no environment
    variables set. *)
Definition default_config : MCPServerConfig :=
  mk_server_config "127.0.0.1" 8082 "lmstudio"
    (mk_provider_config "http://localhost:1234" None (Some "vision") (60 # 1))
    (mk_provider_config "http://localhost:11434" None (Some "llava") (60 # 1)).

(** ** base64 (the [base64.b64encode] used by clients.encode_image_to_base64)

    Every three bytes become four characters of the RFC 4648 alphabet; a
    final group of one or two bytes is padded with zero bits and '='. *)

Definition b64_char (i : N) : ascii :=
  if N.ltb i 26 then ascii_of_N (65 + i)
  else if N.ltb i 52 then ascii_of_N (97 + (i - 26))
  else if N.ltb i 62 then ascii_of_N (48 + (i - 52))
  else if N.eqb i 62 then "+"%char else "/"%char.

Definition b64_i0 (a : Byte.byte) : N := N.shiftr (Byte.to_N a) 2.
Definition b64_i1 (a b : Byte.byte) : N :=
  N.lor (N.shiftl (N.land (Byte.to_N a) 3) 4) (N.shiftr (Byte.to_N b) 4).
Definition b64_i2 (b c : Byte.byte) : N :=
  N.lor (N.shiftl (N.land (Byte.to_N b) 15) 2) (N.shiftr (Byte.to_N c) 6).
Definition b64_i3 (c : Byte.byte) : N := N.land (Byte.to_N c) 63.

Fixpoint b64encode_chars (l : list Byte.byte) : list ascii :=
  match l with
  | a :: b :: c :: rest =>
      b64_char (b64_i0 a) :: b64_char (b64_i1 a b) :: b64_char (b64_i2 b c)
        :: b64_char (b64_i3 c) :: b64encode_chars rest
  | [a; b] =>
      [b64_char (b64_i0 a); b64_char (b64_i1 a b); b64_char (b64_i2 b Byte.x00); "="%char]
  | [a] =>
      [b64_char (b64_i0 a); b64_char (b64_i1 a Byte.x00); "="%char; "="%char]
  | [] => []
  end.

(** [base64.b64encode(raw).decode("ascii")] *)
Definition b64encode (l : list Byte.byte) : string :=
  string_of_list_ascii (b64encode_chars l).

(** Decoding, as [base64.b64decode] does on the canonical (padded, alphabet
    only) strings that [b64encode] produces. *)
Definition b64_index (c : ascii) : option N :=
  let n := N_of_ascii c in
  if N.leb 65 n && N.leb n 90 then Some (n - 65)%N
  else if N.leb 97 n && N.leb n 122 then Some (n - 71)%N
  else if N.leb 48 n && N.leb n 57 then Some (n + 4)%N
  else if N.eqb n 43 then Some 62%N
  else if N.eqb n 47 then Some 63%N
  else None.

Definition dec_a (x0 x1 : N) : N := N.lor (N.shiftl x0 2) (N.shiftr x1 4).
Definition dec_b (x1 x2 : N) : N := N.lor (N.shiftl (N.land x1 15) 4) (N.shiftr x2 2).
Definition dec_c (x2 x3 : N) : N := N.lor (N.shiftl (N.land x2 3) 6) x3.

Notation "x <-? m ;; k" := (match m with Some x => k | None => None end)
  (at level 61, m at next level, right associativity).

Fixpoint b64decode_chars (l : list ascii) : option (list Byte.byte) :=
  match l with
  | [] => Some []
  | c0 :: c1 :: c2 :: c3 :: rest =>
      x0 <-? b64_index c0 ;; x1 <-? b64_index c1 ;;
      a <-? Byte.of_N (dec_a x0 x1) ;;
      match Ascii.eqb c3 "="%char, Ascii.eqb c2 "="%char, rest with
      | true, true, [] => Some [a]
      | true, false, [] =>
          x2 <-? b64_index c2 ;; b <-? Byte.of_N (dec_b x1 x2) ;; Some [a; b]
      | _, _, _ =>
          x2 <-? b64_index c2 ;; x3 <-? b64_index c3 ;;
          b <-? Byte.of_N (dec_b x1 x2) ;; c <-? Byte.of_N (dec_c x2 x3) ;;
          r <-? b64decode_chars rest ;; Some (a :: b :: c :: r)
      end
  | _ => None
  end.

Definition b64decode (s : string) : option (list Byte.byte) :=
  b64decode_chars (list_ascii_of_string s).

(** What [json.loads(text)] does: return a value, raise JSONDecodeError
    (with its [msg]), or raise another exception: RecursionError on a
    deeply nested text, ValueError for an integer beyond the digit limit of
    [int], MemoryError. *)
Inductive loads_result :=
| Loaded : json -> loads_result
| DecodeFailed : string -> loads_result
| LoadsRaised : pyexc -> loads_result.

(** ** The outside world

    What the code consults but does not define: the providers' HTTP
    endpoints (the reply may depend on the calls made so before), the file
    system, [mimetypes.guess_type], Python's [str()] of values the model
    does not print itself, and the pieces of the HTTP library the request
    handler uses. *)
Record world := mk_world {
  w_transport : list http_call -> http_call -> transport;
  (** [open(path, "rb").read()] *)
  w_open_read : json -> result (list Byte.byte);
  (** [mimetypes.guess_type(path)[0]] *)
  w_guess_type : json -> result json;
  (** [str(v)] for floats, lists and dicts *)
  w_py_repr : json -> string;
  (** [urlparse(target).path] *)
  w_url_path : string -> string;
  (** [int(text)]; [inr m] when it raises ValueError, [m] being [str] of
      the exception (Python quotes the text with [%.200R]) *)
  w_py_int : string -> Z + string;
  (** The exception [rfile.read(n)] raises when it cannot allocate the
      buffer for n bytes ([MemoryError], or [OverflowError] "byte string
      is too large" near the [Py_ssize_t] limit); [None] when it can *)
  w_read_alloc : Z -> option pyexc;
  (** [raw.decode("utf-8")]; [inr m] is a UnicodeDecodeError with [str] m *)
  w_utf8_decode : list Byte.byte -> string + string;
  (** [json.loads(text)] *)
  w_json_loads : string -> loads_result
}.

Section Server.

Variable w : world.

Definition of_result {A} (r : result A) : M A :=
  match r with Ok x => ret x | Err e => raise e end.

(** [str(v)] as used by f-strings *)
Definition py_str (v : json) : string :=
  match v with
  | JStr s => s
  | JNull => "None"
  | JBool true => "True"
  | JBool false => "False"
  | JInt z => Z_to_dec z
  | _ => w_py_repr w v
  end.

(** *** clients.py *)

(** [_post_json]: the call is made (and logged) whatever its outcome. *)
Definition post_json (url : string) (payload : json) (headers : list (string * string))
  : M json :=
  fun s =>
    let c := mk_call url payload headers in
    let s' := c :: s in
    match w_transport w s c with
    | TJson j => (Ok j, s')
    | THTTPError code message =>
        (Err (LLMClientError ("HTTP " ++ Z_to_dec code ++ " error from provider: " ++ message)), s')
    | TURLError reason =>
        (Err (LLMClientError ("Transport error contacting provider: " ++ reason)), s')
    | TRaise e => (Err e, s')
    end.

Inductive client :=
| LMStudioClient : ProviderConfig -> client
| OllamaClient : ProviderConfig -> client.

(** The methods each client class defines. *)
Definition client_methods (c : client) : list string :=
  match c with
  | LMStudioClient _ => ["__init__"; "_headers"; "chat"; "vision"]
  | OllamaClient _ => ["__init__"; "chat"; "vision"]
  end.

(** [hasattr(client, name)] for a method name *)
Definition hasattr (c : client) (name : string) : bool :=
  existsb (String.eqb name) (client_methods c).

Definition lm_headers (cfg : ProviderConfig) : list (string * string) :=
  ("Content-Type", "application/json")
    :: match api_key cfg with
       | Some k => if String.eqb k "" then [] else [("Authorization", "Bearer " ++ k)]
       | None => []
       end.

(** [LMStudioClient.chat] *)
Definition lm_chat (cfg : ProviderConfig) (messages model temperature : json) : M json :=
  let model_name := py_or model (opt_str (default_model cfg)) in
  if negb (truthy model_name) then raise (LLMClientError "No model configured for LM Studio.")
  else post_json (rstrip_slash (base_url cfg) ++ "/v1/chat/completions")
         (JDict [("model", model_name); ("messages", messages); ("temperature", temperature)])
         (lm_headers cfg).

(** [LMStudioClient.vision] *)
Definition lm_vision (cfg : ProviderConfig) (prompt : json) (image_data : list json) (model : json)
  : M json :=
  let content := JDict [("type", JStr "input_text"); ("text", prompt)]
                   :: map (fun image => JDict [("type", JStr "input_image"); ("image", image)])
                          image_data in
  let messages := JList [JDict [("role", JStr "user"); ("content", JList content)]] in
  lm_chat cfg messages model (JFloat (1 # 5)).

(** [OllamaClient.chat] *)
Definition ollama_chat (cfg : ProviderConfig) (messages model : json) : M json :=
  let model_name := py_or model (opt_str (default_model cfg)) in
  if negb (truthy model_name) then raise (LLMClientError "No model configured for Ollama.")
  else post_json (rstrip_slash (base_url cfg) ++ "/api/chat")
         (JDict [("model", model_name); ("messages", messages); ("stream", JBool false)])
         [("Content-Type", "application/json")].

(** [OllamaClient.vision] *)
Definition ollama_vision (cfg : ProviderConfig) (prompt : json) (image_data : list json) (model : json)
  : M json :=
  let message := JDict ([("role", JStr "user"); ("content", prompt)]
                          ++ match image_data with
                             | [] => []
                             | _ => [("images", JList image_data)]
                             end) in
  ollama_chat cfg (JList [message]) model.

(** [client.chat(messages, model=model)], with [temperature=...] when
    [temperature] is [Some]. *)
Definition client_chat (c : client) (messages model : json) (temperature : option json) : M json :=
  match c, temperature with
  | LMStudioClient cfg, Some t => lm_chat cfg messages model t
  | LMStudioClient cfg, None => lm_chat cfg messages model (JFloat (1 # 5))
  | OllamaClient cfg, None => ollama_chat cfg messages model
  | OllamaClient _, Some _ =>
      raise (TypeError "OllamaClient.chat() got an unexpected keyword argument 'temperature'")
  end.

Definition client_vision (c : client) (prompt : json) (images : list json) (model : json) : M json :=
  match c with
  | LMStudioClient cfg => lm_vision cfg prompt images model
  | OllamaClient cfg => ollama_vision cfg prompt images model
  end.

(** [encode_image_to_base64] *)
Definition encode_image_to_base64 (path : json) : M json :=
  raw <- of_result (w_open_read w path) ;;
  ret (JStr (b64encode raw)).

(** *** server.py: [MCPServerState] *)

(** [self._clients] *)
Definition clients (config : MCPServerConfig) : list (string * client) :=
  [("lmstudio", LMStudioClient (lm_studio config));
   ("ollama", OllamaClient (ollama config))].

Fixpoint lookup_client (k : string) (d : list (string * client)) : option client :=
  match d with
  | [] => None
  | (k', c) :: d' => if String.eqb k k' then Some c else lookup_client k d'
  end.

(** [get_client(provider)] *)
Definition get_client (config : MCPServerConfig) (provider : json) : result (string * client) :=
  let v := py_or provider (JStr (default_provider config)) in
  match v with
  | JStr s =>
      let provider_name := lower s in
      match lookup_client provider_name (clients config) with
      | Some c => Ok (provider_name, c)
      | None => Err (ValueError ("Unsupported provider '" ++ provider_name ++ "'."))
      end
  | _ => Err (no_attribute v "lower")
  end.

(** [not isinstance(v, list) or not v], negated *)
Definition nonempty_list (v : json) : option (list json) :=
  match v with
  | JList ((_ :: _) as l) => Some l
  | _ => None
  end.

Definition unsupported_image_msg : string :=
  "Unsupported image entry format. Use a path string or an object with 'path', 'base64' or 'data_uri'.".

(** [_load_image(path, mime_hint)] *)
Definition load_image (path mime_hint : json) : M (json * json) :=
  mime_type <- (if truthy mime_hint then ret mime_hint else of_result (w_guess_type w path)) ;;
  encoded <- encode_image_to_base64 path ;;
  ret (encoded, mime_type).

Definition dict_item (kv : list (string * json)) (k : string) : json :=
  match assoc_get k kv with Some v => v | None => JNull end.

(** [_normalise_image_entry(entry)] *)
Definition normalise_image_entry (entry : json) : M (json * json) :=
  match entry with
  | JStr _ => load_image entry JNull
  | JDict kv =>
      if dict_has kv "data_uri" then ret (dict_item kv "data_uri", JNull)
      else if dict_has kv "base64" then ret (dict_item kv "base64", dict_item kv "mime")
      else if dict_has kv "path" then load_image (dict_item kv "path") (dict_item kv "mime")
      else raise (ValueError unsupported_image_msg)
  | _ => raise (ValueError unsupported_image_msg)
  end.

(** [_format_for_provider(provider, encoded, mime_type)] *)
Definition format_for_provider (provider : string) (encoded mime_type : json) : result json :=
  if String.eqb provider "lmstudio" then
    match encoded with
    | JStr e =>
        if startswith e "data:" then Ok encoded
        else let mime := py_or mime_type (JStr "image/png") in
             Ok (JStr ("data:" ++ py_str mime ++ ";base64," ++ e))
    | _ => Err (no_attribute encoded "startswith")
    end
  else if String.eqb provider "ollama" then
    match encoded with
    | JStr e => if startswith e "data:" then Ok (JStr (after_comma e)) else Ok encoded
    | _ => Err (no_attribute encoded "startswith")
    end
  else Ok encoded.

(** [_prepare_images(provider, entries)] *)
Fixpoint prepare_images (provider : string) (entries : list json) : M (list json) :=
  match entries with
  | [] => ret []
  | entry :: rest =>
      '(encoded, mime_type) <- normalise_image_entry entry ;;
      f <- of_result (format_for_provider provider encoded mime_type) ;;
      fs <- prepare_images provider rest ;;
      ret (f :: fs)
  end.

(** The methods below take as [unsupported] what they do in the branch
    where the client lacks the capability; the server's methods instantiate
    it with the [raise ValueError(...)] of the source. *)

(** [chat(payload)] *)
Definition chat_with (unsupported : string -> M json) (config : MCPServerConfig) (payload : json)
  : M json :=
  provider <- py_get payload "provider" ;;
  '(provider_name, c) <- of_result (get_client config provider) ;;
  messages <- py_get payload "messages" ;;
  match nonempty_list messages with
  | None => raise (ValueError "'messages' must be a non-empty list.")
  | Some _ =>
      model <- py_get payload "model" ;;
      temperature <- py_get_default payload "temperature" (JFloat (1 # 5)) ;;
      if hasattr c "chat" then
        response <- (if String.eqb provider_name "lmstudio"
                     then client_chat c messages model (Some temperature)
                     else client_chat c messages model None) ;;
        ret (JDict [("provider", JStr provider_name); ("response", response)])
      else unsupported provider_name
  end.

Definition chat := chat_with (fun provider_name =>
  raise (ValueError ("Provider '" ++ provider_name ++ "' does not support chat operations."))).

(** [vision(payload)] *)
Definition vision_with (unsupported : string -> M json) (config : MCPServerConfig) (payload : json)
  : M json :=
  provider <- py_get payload "provider" ;;
  '(provider_name, c) <- of_result (get_client config provider) ;;
  p <- py_get payload "prompt" ;;
  let prompt := py_or p (JStr "Describe the image") in
  images <- py_get payload "images" ;;
  match nonempty_list images with
  | None => raise (ValueError "'images' must be a non-empty list.")
  | Some entries =>
      prepared_images <- prepare_images provider_name entries ;;
      model <- py_get payload "model" ;;
      if negb (hasattr c "vision") then unsupported provider_name
      else
        response <- client_vision c prompt prepared_images model ;;
        ret (JDict [("provider", JStr provider_name); ("response", response)])
  end.

Definition vision := vision_with (fun provider_name =>
  raise (ValueError ("Provider '" ++ provider_name ++ "' does not support vision analysis."))).

(** The [for image_entry in items] loop of [batch] *)
Fixpoint batch_loop (provider_name : string) (c : client) (prompt model : json)
  (items : list json) : M (list json) :=
  match items with
  | [] => ret []
  | image_entry :: rest =>
      prepared <- prepare_images provider_name [image_entry] ;;
      response <- client_vision c prompt prepared model ;;
      results <- batch_loop provider_name c prompt model rest ;;
      ret (JDict [("image", image_entry); ("response", response)] :: results)
  end.

(** [batch(payload)] *)
Definition batch_with (unsupported : string -> M json) (config : MCPServerConfig) (payload : json)
  : M json :=
  provider <- py_get payload "provider" ;;
  '(provider_name, c) <- of_result (get_client config provider) ;;
  p <- py_get payload "prompt" ;;
  let prompt := py_or p (JStr "Describe the image") in
  items <- py_get payload "images" ;;
  match nonempty_list items with
  | None => raise (ValueError "'images' must be a non-empty list.")
  | Some entries =>
      model <- py_get payload "model" ;;
      if negb (hasattr c "vision") then unsupported provider_name
      else
        results <- batch_loop provider_name c prompt model entries ;;
        ret (JDict [("provider", JStr provider_name); ("results", JList results)])
  end.

Definition batch := batch_with (fun provider_name =>
  raise (ValueError ("Provider '" ++ provider_name ++ "' does not support batch vision analysis."))).

End Server.

(** *** server.py: [MCPRequestHandler] *)

(** A request as [BaseHTTPRequestHandler] has parsed it: the method
    ([self.command]), the request target ([self.path]), the value of the
    [Content-Length] header and the bytes that follow the headers. *)
Record request := mk_request {
  command : string;
  target : string;
  content_length : option string;
  body : list Byte.byte
}.

Inductive response_body :=
| BJson : json -> response_body
| BEmpty : response_body
| BHtmlError : string -> response_body.   (* [send_error]'s page, with its message *)

Inductive reply :=
| Reply : Z -> response_body -> reply
| NoReply : reply.   (* an exception escaped the handler: no response is written *)

Definition try_catch {A} (m : M A) (handler : pyexc -> M A) : M A :=
  fun s => match m s with
           | (Ok x, s') => (Ok x, s')
           | (Err e, s') => handler e s'
           end.

(** [PY_SSIZE_T_MAX] on a 64-bit build *)
Definition ssize_max : Z := 2 ^ 63 - 1.

Definition error_json (msg : string) : response_body := BJson (JDict [("error", JStr msg)]).

Section Handler.

Variable w : world.
Variable config : MCPServerConfig.

(** [self.rfile.read(length)] on the handler's [BufferedReader]: the
    argument is converted to a [Py_ssize_t] first (OverflowError beyond
    it), then the buffer is allocated; the bytes returned are the first
    [length] the client sends (fewer when it closes the connection). *)
Definition rfile_read (length : Z) (data : list Byte.byte) : result (list Byte.byte) :=
  if Z.ltb ssize_max length
  then Err (OtherError "OverflowError" "cannot fit 'int' into an index-sized integer")
  else match w_read_alloc w length with
       | Some e => Err e
       | None => Ok (firstn (Z.to_nat length) data)
       end.

(** [_parse_json()] *)
Definition parse_json (req : request) : result json :=
  let text := match content_length req with Some t => t | None => "0" end in
  match w_py_int w text with
  | inr m => Err (ValueError m)
  | inl length =>
      if Z.leb length 0 then Err (ValueError "Missing request body")
      else match rfile_read length (body req) with
           | Err e => Err e
           | Ok data =>
               match w_utf8_decode w data with
               | inr m => Err (UnicodeDecodeError m)
               | inl raw =>
                   match w_json_loads w raw with
                   | Loaded payload => Ok payload
                   | DecodeFailed m => Err (ValueError ("Invalid JSON payload: " ++ m))
                   | LoadsRaised e => Err e
                   end
               end
           end
  end.

(** [do_OPTIONS()] *)
Definition do_OPTIONS (req : request) : reply := Reply 204 BEmpty.

(** [do_GET()] *)
Definition do_GET (req : request) : reply :=
  let path := w_url_path w (target req) in
  if String.eqb path "/health" then Reply 200 (BJson (JDict [("status", JStr "ok")]))
  else if String.eqb path "/config" then Reply 200 (BJson (as_dict config))
  else Reply 404 (error_json "Unknown endpoint").

(** [do_POST()] *)
Definition do_POST (req : request) : M reply :=
  let path := w_url_path w (target req) in
  match parse_json req with
  | Err e => if is_value_error e then ret (Reply 400 (error_json (exc_str e))) else ret NoReply
  | Ok payload =>
      try_catch
        (if String.eqb path "/chat" then
           result <- chat w config payload ;; ret (Reply 200 (BJson result))
         else if String.eqb path "/analyze" then
           result <- vision w config payload ;; ret (Reply 200 (BJson result))
         else if String.eqb path "/batch" then
           result <- batch w config payload ;; ret (Reply 200 (BJson result))
         else ret (Reply 404 (error_json "Unknown endpoint")))
        (fun e =>
           match e with
           | LLMClientError _ => ret (Reply 400 (error_json (exc_str e)))
           | _ => if is_value_error e then ret (Reply 400 (error_json (exc_str e)))
                  else ret (Reply 500 (error_json (exc_str e)))
           end)
  end.

(** [BaseHTTPRequestHandler.handle_one_request] calls [do_<command>] when
    the handler defines it and otherwise answers 501 with [send_error]. *)
Definition handle_request (req : request) : M reply :=
  if String.eqb (command req) "GET" then ret (do_GET req)
  else if String.eqb (command req) "POST" then do_POST req
  else if String.eqb (command req) "OPTIONS" then ret (do_OPTIONS req)
  else ret (Reply 501 (BHtmlError ("Unsupported method ('" ++ command req ++ "')"))).

End Handler.

(** ** A concrete world, used by the examples and the witnesses *)

Fixpoint dec_value (s : string) (acc : Z) : option Z :=
  match s with
  | EmptyString => Some acc
  | String c s' =>
      let n := N_of_ascii c in
      if N.leb 48 n && N.leb n 57 then dec_value s' (acc * 10 + Z.of_N (n - 48)%N)%Z
      else None
  end.

Definition demo_image : list Byte.byte := [Byte.x4d; Byte.x61; Byte.x6e].

Definition demo_world : world := {|
  w_transport := fun _ c => TJson (JDict [("echo", call_payload c)]);
  w_open_read := fun p => match p with
                          | JStr s => if String.eqb s "/img/man.png" then Ok demo_image
                                      else Err (OSError ("[Errno 2] No such file or directory: '" ++ s ++ "'"))
                          | _ => Err (TypeError "expected str, bytes or os.PathLike object")
                          end;
  w_guess_type := fun p => match p with
                           | JStr s => Ok (if String.eqb s "/img/man.png" then JStr "image/png" else JNull)
                           | _ => Err (TypeError "expected str, bytes or os.PathLike object")
                           end;
  w_py_repr := fun _ => "<value>";
  w_url_path := fun t => t;
  w_py_int := fun t => match match t with EmptyString => None | _ => dec_value t 0 end with
                       | Some z => inl z
                       | None => inr ("invalid literal for int() with base 10: '" ++ t ++ "'")
                       end;
  w_read_alloc := fun n => if Z.ltb (2 ^ 40) n then Some (OtherError "MemoryError" "") else None;
  w_utf8_decode := fun b => inl (string_of_list_byte b);
  w_json_loads := fun raw =>
    if String.eqb raw "{}" then Loaded (JDict [])
    else if String.eqb raw "[[]]" then
      LoadsRaised (OtherError "RecursionError"
                     "maximum recursion depth exceeded while decoding a JSON array from a unicode string")
    else DecodeFailed "Expecting value"
|}.

(** ** Specification helpers *)

(** Exhaustive checks of the base64 bit arithmetic over all bytes. *)

Definition all_bytes : list Byte.byte :=
  map (fun n => match Byte.of_nat n with Some b => b | None => Byte.x00 end) (seq 0 256).

Definition index_ok (i : N) : bool :=
  match b64_index (b64_char i) with Some j => N.eqb i j | None => false end.

Definition check_one (a : Byte.byte) : bool :=
  let x := Byte.to_N a in
  index_ok (b64_i0 a) && index_ok (b64_i3 a)
  && N.eqb (N.lor (N.shiftl (N.shiftr x 4) 4) (N.land x 15)) x
  && N.eqb (N.lor (N.shiftl (N.shiftr x 6) 6) (N.land x 63)) x.

Definition check_ab (a b : Byte.byte) : bool :=
  index_ok (b64_i1 a b)
  && N.eqb (dec_a (b64_i0 a) (b64_i1 a b)) (Byte.to_N a)
  && N.eqb (N.land (b64_i1 a b) 15) (N.shiftr (Byte.to_N b) 4).

Definition check_bc (b c : Byte.byte) : bool :=
  index_ok (b64_i2 b c)
  && N.eqb (N.shiftr (b64_i2 b c) 2) (N.land (Byte.to_N b) 15)
  && N.eqb (N.land (b64_i2 b c) 3) (N.shiftr (Byte.to_N c) 6).

(** One iteration of the loop of [batch]: prepare one entry and ask the
    provider about it. *)
Definition batch_item (w : world) (provider_name : string) (c : client) (prompt model : json)
  (image_entry : json) : M json :=
  prepared <- prepare_images w provider_name [image_entry] ;;
  client_vision w c prompt prepared model.

(** [batch_answers w n c prompt model items results s s']: starting from the
    call log [s], each entry of [items] in turn was prepared and answered by
    the provider, [results] pairs each entry with that answer, in order,
    and [s'] is the final log. *)
Inductive batch_answers (w : world) (n : string) (c : client) (prompt model : json)
  : list json -> list json -> list http_call -> list http_call -> Prop :=
| answers_nil s : batch_answers w n c prompt model [] [] s s
| answers_cons image_entry rest prepared response results s s1 s2 s3 :
    prepare_images w n [image_entry] s = (Ok prepared, s1) ->
    client_vision w c prompt prepared model s1 = (Ok response, s2) ->
    batch_answers w n c prompt model rest results s2 s3 ->
    batch_answers w n c prompt model (image_entry :: rest)
      (JDict [("image", image_entry); ("response", response)] :: results) s s3.


(** ** config.py: [MCPServerConfig.from_env] and the field factories *)

Section Env.

(** [os.environ.get(name)] *)
Variable environ : string -> option string.
(** [int(text)] and [float(text)]; [inr m] when they raise ValueError,
    [m] being [str] of the exception (the text appears in it as [repr]
    gives it, cut to 200 characters for [int]) *)
Variable py_int : string -> Z + string.
Variable py_float : string -> Q + string.

(** [os.environ.get(name, default)] *)
Definition environ_get (name dflt : string) : string :=
  match environ name with Some v => v | None => dflt end.

Definition int_of (text : string) : result Z :=
  match py_int text with
  | inl z => Ok z
  | inr m => Err (ValueError m)
  end.

Definition float_of (text : string) : result Q :=
  match py_float text with
  | inl q => Ok q
  | inr m => Err (ValueError m)
  end.

(** The [default_factory] of [MCPServerConfig.lm_studio] *)
Definition lm_studio_factory : result ProviderConfig :=
  let url := environ_get "LM_STUDIO_URL" "http://localhost:1234" in
  let key := environ "LM_STUDIO_API_KEY" in
  let model := environ_get "LM_STUDIO_MODEL" "vision" in
  match float_of (environ_get "LM_STUDIO_TIMEOUT" "60") with
  | Ok t => Ok (mk_provider_config url key (Some model) t)
  | Err e => Err e
  end.

(** The [default_factory] of [MCPServerConfig.ollama] (no API key) *)
Definition ollama_factory : result ProviderConfig :=
  let url := environ_get "OLLAMA_URL" "http://localhost:11434" in
  let model := environ_get "OLLAMA_MODEL" "llava" in
  match float_of (environ_get "OLLAMA_TIMEOUT" "60") with
  | Ok t => Ok (mk_provider_config url None (Some model) t)
  | Err e => Err e
  end.

(** [MCPServerConfig.from_env()]: the dataclass initialises its fields in
    declaration order, so [lm_studio]'s factory runs before [ollama]'s, both
    after [host], [port] and [default_provider] have been read. *)
Definition from_env : result MCPServerConfig :=
  let host_v := environ_get "DARKTABLE_MCP_HOST" "127.0.0.1" in
  match int_of (environ_get "DARKTABLE_MCP_PORT" "8082") with
  | Err e => Err e
  | Ok port_v =>
      let provider_v := environ_get "DARKTABLE_MCP_PROVIDER" "lmstudio" in
      match lm_studio_factory with
      | Err e => Err e
      | Ok lm =>
          match ollama_factory with
          | Err e => Err e
          | Ok ol => Ok (mk_server_config host_v port_v provider_v lm ol)
          end
      end
  end.

(** ** __main__.py *)

(** The options of [build_parser().parse_args()] that [main] passes on:
    [--host], [--port] (argparse applies [int]) and [--provider]. *)
Record cli_args := mk_cli_args {
  arg_host : option string;
  arg_port : option Z;
  arg_provider : option string
}.

(** [_apply_overrides(config, host, port, provider)]; [replace] builds a
    copy with one field changed. *)
Definition apply_overrides (config : MCPServerConfig) (host_o : option string)
  (port_o : option Z) (provider_o : option string) : MCPServerConfig :=
  let updated := config in
  let updated := match host_o with
                 | Some h => mk_server_config h (port updated) (default_provider updated)
                               (lm_studio updated) (ollama updated)
                 | None => updated
                 end in
  let updated := match port_o with
                 | Some p => mk_server_config (host updated) p (default_provider updated)
                               (lm_studio updated) (ollama updated)
                 | None => updated
                 end in
  let updated := match provider_o with
                 | Some d => mk_server_config (host updated) (port updated) d
                               (lm_studio updated) (ollama updated)
                 | None => updated
                 end in
  updated.

(** The configuration [main] hands to [create_server]:
    [config = MCPServerConfig.from_env()] then [_apply_overrides]. *)
Definition main_config (args : cli_args) : result MCPServerConfig :=
  match from_env with
  | Ok config => Ok (apply_overrides config (arg_host args) (arg_port args) (arg_provider args))
  | Err e => Err e
  end.

End Env.

(** The [choices] of [build_parser]'s [--provider] option: argparse rejects
    any other value before [main] goes on. *)
Definition provider_choices : list string := ["lmstudio"; "ollama"].

(** ** server.py: what the handler writes *)



Section Wire.

(** [json.dumps(payload).encode("utf-8")] *)
Variable dumps : json -> list Byte.byte.



End Wire.

(** A world whose [json.loads] also reads the body [[]], a JSON list. *)
Definition list_body_world : world := {|
  w_transport := w_transport demo_world;
  w_open_read := w_open_read demo_world;
  w_guess_type := w_guess_type demo_world;
  w_py_repr := w_py_repr demo_world;
  w_url_path := w_url_path demo_world;
  w_py_int := w_py_int demo_world;
  w_read_alloc := w_read_alloc demo_world;
  w_utf8_decode := w_utf8_decode demo_world;
  w_json_loads := fun raw =>
    if String.eqb raw "[]" then Loaded (JList []) else w_json_loads demo_world raw
|}.

(** [float(text)] on decimal integers, for the examples *)
Definition demo_py_float (text : string) : Q + string :=
  match w_py_int demo_world text with
  | inl z => inl (inject_Z z)
  | inr _ => inr ("could not convert string to float: '" ++ text ++ "'")
  end.

(** An environment that sets DARKTABLE_MCP_PROVIDER to the empty string *)
Definition empty_provider_env (name : string) : option string :=
  if String.eqb name "DARKTABLE_MCP_PROVIDER" then Some "" else None.

(** The variables [from_env] and the field factories read *)
Definition from_env_vars : list string :=
  ["DARKTABLE_MCP_HOST"; "DARKTABLE_MCP_PORT"; "DARKTABLE_MCP_PROVIDER";
   "LM_STUDIO_URL"; "LM_STUDIO_API_KEY"; "LM_STUDIO_MODEL"; "LM_STUDIO_TIMEOUT";
   "OLLAMA_URL"; "OLLAMA_MODEL"; "OLLAMA_TIMEOUT"].

(** An environment that sets DARKTABLE_MCP_HOST and OLLAMA_API_KEY only *)
Definition host_env (name : string) : option string :=
  if String.eqb name "DARKTABLE_MCP_HOST" then Some "10.0.0.5"
  else if String.eqb name "OLLAMA_API_KEY" then Some "sk-unused" else None.

(** [config] with the two API keys replaced *)
Definition with_api_keys (c : MCPServerConfig) (k1 k2 : option string) : MCPServerConfig :=
  mk_server_config (host c) (port c) (default_provider c)
    (mk_provider_config (base_url (lm_studio c)) k1 (default_model (lm_studio c)) (timeout (lm_studio c)))
    (mk_provider_config (base_url (ollama c)) k2 (default_model (ollama c)) (timeout (ollama c))).

(** "data:..." *)
Definition is_data_uri (v : json) : Prop :=
  exists d, v = JStr d /\ startswith d "data:" = true.

(** ** Properties *)

(** *** base64 *)

Lemma all_bytes_complete (b : Byte.byte) : In b all_bytes.
Proof.
  apply in_map_iff. exists (Byte.to_nat b). split.
  - rewrite Byte.of_to_nat. reflexivity.
  - apply in_seq. pose proof (Byte.to_nat_bounded b). lia.
Qed.

Lemma forall_bytes (P : Byte.byte -> bool) :
  forallb P all_bytes = true -> forall b, P b = true.
Proof. intros H b. rewrite forallb_forall in H. apply H, all_bytes_complete. Qed.

Lemma check_one_all (a : Byte.byte) : check_one a = true.
Proof. revert a. apply forall_bytes. vm_compute. reflexivity. Qed.

Lemma check_ab_all (a b : Byte.byte) : check_ab a b = true.
Proof.
  revert b. apply forall_bytes. revert a.
  apply (forall_bytes (fun a => forallb (check_ab a) all_bytes)).
  vm_compute. reflexivity.
Qed.

Lemma check_bc_all (b c : Byte.byte) : check_bc b c = true.
Proof.
  revert c. apply forall_bytes. revert b.
  apply (forall_bytes (fun b => forallb (check_bc b) all_bytes)).
  vm_compute. reflexivity.
Qed.

Ltac unpack_checks :=
  repeat match goal with
         | H : _ && _ = true |- _ => apply andb_prop in H; destruct H
         | H : N.eqb _ _ = true |- _ => apply N.eqb_eq in H
         end.

Lemma index_of_ok (i : N) : index_ok i = true -> b64_index (b64_char i) = Some i.
Proof.
  unfold index_ok. destruct (b64_index (b64_char i)) as [j|]; [|discriminate].
  intros H. apply N.eqb_eq in H. subst. reflexivity.
Qed.

Lemma char_not_pad (i : N) : index_ok i = true -> Ascii.eqb (b64_char i) "="%char = false.
Proof.
  intros H. apply index_of_ok in H.
  destruct (Ascii.eqb_spec (b64_char i) "="%char) as [E|]; [|reflexivity].
  rewrite E in H. discriminate.
Qed.

Lemma index_i0 a : b64_index (b64_char (b64_i0 a)) = Some (b64_i0 a).
Proof. pose proof (check_one_all a) as H. unfold check_one in H. unpack_checks. now apply index_of_ok. Qed.

Lemma index_i3 a : b64_index (b64_char (b64_i3 a)) = Some (b64_i3 a).
Proof. pose proof (check_one_all a) as H. unfold check_one in H. unpack_checks. now apply index_of_ok. Qed.

Lemma index_i1 a b : b64_index (b64_char (b64_i1 a b)) = Some (b64_i1 a b).
Proof. pose proof (check_ab_all a b) as H. unfold check_ab in H. unpack_checks. now apply index_of_ok. Qed.

Lemma index_i2 b c : b64_index (b64_char (b64_i2 b c)) = Some (b64_i2 b c).
Proof. pose proof (check_bc_all b c) as H. unfold check_bc in H. unpack_checks. now apply index_of_ok. Qed.

Lemma i3_not_pad c : Ascii.eqb (b64_char (b64_i3 c)) "="%char = false.
Proof. pose proof (check_one_all c) as H. unfold check_one in H. unpack_checks. now apply char_not_pad. Qed.

Lemma i2_not_pad b c : Ascii.eqb (b64_char (b64_i2 b c)) "="%char = false.
Proof. pose proof (check_bc_all b c) as H. unfold check_bc in H. unpack_checks. now apply char_not_pad. Qed.

Lemma split_a a b : dec_a (b64_i0 a) (b64_i1 a b) = Byte.to_N a.
Proof.
  pose proof (check_ab_all a b) as H. unfold check_ab in H.
  apply andb_prop in H as [H _]. apply andb_prop in H as [_ H]. now apply N.eqb_eq.
Qed.

Lemma split_i1_low a b : N.land (b64_i1 a b) 15 = N.shiftr (Byte.to_N b) 4.
Proof.
  pose proof (check_ab_all a b) as H. unfold check_ab in H.
  apply andb_prop in H as [_ H]. now apply N.eqb_eq.
Qed.

Lemma split_i2_high b c : N.shiftr (b64_i2 b c) 2 = N.land (Byte.to_N b) 15.
Proof.
  pose proof (check_bc_all b c) as H. unfold check_bc in H.
  apply andb_prop in H as [H _]. apply andb_prop in H as [_ H]. now apply N.eqb_eq.
Qed.

Lemma split_i2_low b c : N.land (b64_i2 b c) 3 = N.shiftr (Byte.to_N c) 6.
Proof.
  pose proof (check_bc_all b c) as H. unfold check_bc in H.
  apply andb_prop in H as [_ H]. now apply N.eqb_eq.
Qed.

Lemma join_4_4 b :
  N.lor (N.shiftl (N.shiftr (Byte.to_N b) 4) 4) (N.land (Byte.to_N b) 15) = Byte.to_N b.
Proof.
  pose proof (check_one_all b) as H. unfold check_one in H.
  apply andb_prop in H as [H _]. apply andb_prop in H as [_ H]. now apply N.eqb_eq.
Qed.

Lemma join_2_6 b :
  N.lor (N.shiftl (N.shiftr (Byte.to_N b) 6) 6) (N.land (Byte.to_N b) 63) = Byte.to_N b.
Proof.
  pose proof (check_one_all b) as H. unfold check_one in H.
  apply andb_prop in H as [_ H]. now apply N.eqb_eq.
Qed.

Lemma decode_a a b : Byte.of_N (dec_a (b64_i0 a) (b64_i1 a b)) = Some a.
Proof. rewrite split_a. apply Byte.of_to_N. Qed.

Lemma decode_b a b c : Byte.of_N (dec_b (b64_i1 a b) (b64_i2 b c)) = Some b.
Proof. unfold dec_b. rewrite split_i1_low, split_i2_high, join_4_4. apply Byte.of_to_N. Qed.

Lemma decode_c b c : Byte.of_N (dec_c (b64_i2 b c) (b64_i3 c)) = Some c.
Proof. unfold dec_c. rewrite split_i2_low. unfold b64_i3. rewrite join_2_6. apply Byte.of_to_N. Qed.

Lemma b64_roundtrip_chars (l : list Byte.byte) : b64decode_chars (b64encode_chars l) = Some l.
Proof.
  revert l. fix IH 1. intros [|a [|b [|c rest]]].
  - reflexivity.
  - cbn [b64encode_chars b64decode_chars].
    rewrite index_i0, index_i1, decode_a. reflexivity.
  - cbn [b64encode_chars b64decode_chars].
    rewrite index_i0, index_i1, decode_a, i2_not_pad, index_i2, decode_b. reflexivity.
  - cbn [b64encode_chars b64decode_chars].
    rewrite index_i0, index_i1, decode_a, i3_not_pad, index_i2, index_i3, decode_b, decode_c, IH.
    reflexivity.
Qed.

Lemma b64_roundtrip (l : list Byte.byte) : b64decode (b64encode l) = Some l.
Proof.
  unfold b64decode, b64encode. rewrite list_ascii_of_string_of_list_ascii.
  apply b64_roundtrip_chars.
Qed.

(** *** Monad and lookup facts *)

Lemma bind_ret_l {A B} (x : A) (k : A -> M B) : bind (ret x) k = k x.
Proof. reflexivity. Qed.

Lemma bind_ext {A B} (m : M A) (k1 k2 : A -> M B) :
  (forall x s, k1 x s = k2 x s) -> forall s, bind m k1 s = bind m k2 s.
Proof. intros H s. unfold bind. destruct (m s) as [[x|e] s']; auto. Qed.

Lemma py_get_dict kv k : py_get (JDict kv) k = ret (dict_item kv k).
Proof. unfold py_get, py_get_default, dict_item. destruct (assoc_get k kv); reflexivity. Qed.

Lemma lower_empty (s : string) : lower s = "" <-> s = "".
Proof. destruct s; simpl; split; congruence. Qed.

Lemma get_client_nonempty config s :
  s <> "" ->
  get_client config (JStr s) =
    match lookup_client (lower s) (clients config) with
    | Some c => Ok (lower s, c)
    | None => Err (ValueError ("Unsupported provider '" ++ lower s ++ "'."))
    end.
Proof.
  intros H. unfold get_client, py_or, truthy.
  destruct (String.eqb_spec s ""); [contradiction | reflexivity].
Qed.

Lemma get_client_falsy config v :
  truthy v = false -> get_client config v = get_client config (JStr (default_provider config)).
Proof.
  intros H. unfold get_client, py_or. rewrite H.
  destruct (truthy (JStr (default_provider config))); reflexivity.
Qed.

Lemma lookup_clients config k :
  lookup_client k (clients config) =
    if String.eqb k "lmstudio" then Some (LMStudioClient (lm_studio config))
    else if String.eqb k "ollama" then Some (OllamaClient (ollama config)) else None.
Proof. reflexivity. Qed.

(** A provider field that is a string or falsy only ever fails resolution
    with a ValueError. *)
Lemma get_client_error_is_value_error config p e :
  (truthy p = false \/ exists name, p = JStr name) ->
  get_client config p = Err e -> exists m, e = ValueError m.
Proof.
  intros Hp H. unfold get_client in H.
  destruct Hp as [Hf | [name ->]].
  - unfold py_or in H. rewrite Hf in H.
    destruct (lookup_client (lower (default_provider config)) (clients config));
      inversion H; eauto.
  - unfold py_or in H. destruct (truthy (JStr name)).
    + destruct (lookup_client (lower name) (clients config)); inversion H; eauto.
    + destruct (lookup_client (lower (default_provider config)) (clients config));
        inversion H; eauto.
Qed.

(** *** C3: provider resolution *)

(** Claim C3 does not hold as stated: the empty name [""] lower-cases to a
    string that is no configured key, yet [get_client] does not fail on it;
    Python's [provider or default] replaces the falsy name by the default
    provider. *)
Lemma get_client_empty_name_counterexample :
  ~ (forall config s, lookup_client (lower s) (clients config) = None ->
       exists m, get_client config (JStr s) = Err (ValueError m)).
Proof.
  intros H. destruct (H default_config "" eq_refl) as [m Hm].
  vm_compute in Hm. discriminate Hm.
Qed.

(** C3 (amended): names that agree after lower-casing resolve to the same
    result; a non-empty name resolves to ("lmstudio", the LM Studio client)
    or ("ollama", the Ollama client) when it lower-cases to that key and
    otherwise fails with ValueError "Unsupported provider '<lowered>'."; an
    absent, null or otherwise falsy provider (the empty string included) is
    replaced by the configured default provider name. *)
Theorem get_client_lowercase_resolution (config : MCPServerConfig) (s t : string)
  (Hcase : lower s = lower t) :
  get_client config (JStr s) = get_client config (JStr t)
  /\ (s <> "" -> lower s = "lmstudio" ->
      get_client config (JStr s) = Ok ("lmstudio", LMStudioClient (lm_studio config)))
  /\ (s <> "" -> lower s = "ollama" ->
      get_client config (JStr s) = Ok ("ollama", OllamaClient (ollama config)))
  /\ (s <> "" -> lower s <> "lmstudio" -> lower s <> "ollama" ->
      get_client config (JStr s) = Err (ValueError ("Unsupported provider '" ++ lower s ++ "'.")))
  /\ (forall v, truthy v = false ->
      get_client config v = get_client config (JStr (default_provider config))).
Proof.
  split; [|split; [|split; [|split]]].
  - destruct (String.eqb_spec s "") as [Hs|Hs].
    + subst s. assert (Ht : t = "") by (apply lower_empty; rewrite <- Hcase; reflexivity).
      now subst t.
    + assert (Ht : t <> "") by (intros ->; apply Hs, lower_empty, Hcase).
      rewrite (get_client_nonempty _ _ Hs), (get_client_nonempty _ _ Ht), Hcase.
      reflexivity.
  - intros Hs Hl. rewrite (get_client_nonempty _ _ Hs), lookup_clients, Hl. reflexivity.
  - intros Hs Hl. rewrite (get_client_nonempty _ _ Hs), lookup_clients, Hl. reflexivity.
  - intros Hs H1 H2. rewrite (get_client_nonempty _ _ Hs), lookup_clients.
    apply String.eqb_neq in H1, H2. rewrite H1, H2. reflexivity.
  - apply get_client_falsy.
Qed.

Lemma get_client_lowercase_resolution_witness :
  lower "OLLAMA" = lower "Ollama"
  /\ get_client default_config (JStr "OLLAMA") = get_client default_config (JStr "Ollama").
Proof.
  split; [reflexivity|].
  exact (proj1 (get_client_lowercase_resolution default_config "OLLAMA" "Ollama" eq_refl)).
Defined.

(** *** C4: list fields are checked before any provider is contacted *)

Ltac run_payload :=
  rewrite ?py_get_dict; cbv [bind ret raise of_result].

Ltac run_payload_in H :=
  rewrite ?py_get_dict in H; cbv [bind ret raise of_result] in H.

(** Claim C4 does not hold as stated: a chat payload with no 'messages' but
    a truthy non-string 'provider' fails with AttributeError (from
    [.lower()]), not with a ValueError. *)
Lemma chat_missing_messages_counterexample :
  ~ (forall w config kv s, nonempty_list (dict_item kv "messages") = None ->
       exists m, fst (chat w config (JDict kv) s) = Err (ValueError m)).
Proof.
  intros H. destruct (H demo_world default_config [("provider", JInt 1)] [] eq_refl) as [m Hm].
  vm_compute in Hm. discriminate Hm.
Qed.

(** [provider.lower()] on a truthy value that is not a string raises
    AttributeError. *)
Lemma get_client_non_string config p :
  truthy p = true -> (forall name, p <> JStr name) ->
  get_client config p = Err (no_attribute p "lower").
Proof.
  intros Ht Hs. unfold get_client, py_or. rewrite Ht.
  destruct p; try reflexivity. exfalso. exact (Hs _ eq_refl).
Qed.

(** C4 (amended): when 'messages' (for chat) or 'images' (for vision and
    batch) is missing, not a list or empty, the operation fails without any
    provider call (the call log is unchanged); the error is a ValueError
    whenever the 'provider' field is a string or falsy, and the
    AttributeError of [.lower()] when 'provider' is truthy and not a
    string. *)
Theorem list_fields_checked_before_providers (w : world) (config : MCPServerConfig)
  (kv : list (string * json)) (s : list http_call) :
  (nonempty_list (dict_item kv "messages") = None ->
     snd (chat w config (JDict kv) s) = s
     /\ ((truthy (dict_item kv "provider") = false \/ exists name, dict_item kv "provider" = JStr name) ->
         exists m, fst (chat w config (JDict kv) s) = Err (ValueError m))
     /\ (truthy (dict_item kv "provider") = true -> (forall name, dict_item kv "provider" <> JStr name) ->
         fst (chat w config (JDict kv) s) = Err (no_attribute (dict_item kv "provider") "lower")))
  /\ (nonempty_list (dict_item kv "images") = None ->
     snd (vision w config (JDict kv) s) = s
     /\ snd (batch w config (JDict kv) s) = s
     /\ ((truthy (dict_item kv "provider") = false \/ exists name, dict_item kv "provider" = JStr name) ->
         (exists m, fst (vision w config (JDict kv) s) = Err (ValueError m))
         /\ (exists m, fst (batch w config (JDict kv) s) = Err (ValueError m)))
     /\ (truthy (dict_item kv "provider") = true -> (forall name, dict_item kv "provider" <> JStr name) ->
         fst (vision w config (JDict kv) s) = Err (no_attribute (dict_item kv "provider") "lower")
         /\ fst (batch w config (JDict kv) s) = Err (no_attribute (dict_item kv "provider") "lower"))).
Proof.
  split.
  - intros Hm. unfold chat, chat_with. run_payload.
    destruct (get_client config (dict_item kv "provider")) as [[n c]|e] eqn:G.
    + rewrite Hm. split; [reflexivity|]. split; [intros _; eexists; reflexivity|].
      intros Ht Hs. rewrite (get_client_non_string _ _ Ht Hs) in G. discriminate G.
    + split; [reflexivity|]. split.
      * intros Hp. destruct (get_client_error_is_value_error _ _ _ Hp G) as [m ->]. eexists. reflexivity.
      * intros Ht Hs. rewrite (get_client_non_string _ _ Ht Hs) in G. inversion G. reflexivity.
  - intros Hm. unfold vision, vision_with, batch, batch_with. run_payload.
    destruct (get_client config (dict_item kv "provider")) as [[n c]|e] eqn:G.
    + rewrite Hm. split; [reflexivity|]. split; [reflexivity|].
      split; [intros _; split; eexists; reflexivity|].
      intros Ht Hs. rewrite (get_client_non_string _ _ Ht Hs) in G. discriminate G.
    + split; [reflexivity|]. split; [reflexivity|]. split.
      * intros Hp. destruct (get_client_error_is_value_error _ _ _ Hp G) as [m ->].
        split; eexists; reflexivity.
      * intros Ht Hs. rewrite (get_client_non_string _ _ Ht Hs) in G. inversion G. split; reflexivity.
Qed.

Lemma list_fields_checked_before_providers_witness :
  snd (chat demo_world default_config (JDict [("provider", JStr "Ollama")]) []) = []
  /\ fst (chat demo_world default_config (JDict [("provider", JInt 1)]) [])
     = Err (AttributeError "'int' object has no attribute 'lower'").
Proof.
  split.
  - exact (proj1 (proj1 (list_fields_checked_before_providers demo_world default_config
                           [("provider", JStr "Ollama")] []) eq_refl)).
  - exact (proj2 (proj2 (proj1 (list_fields_checked_before_providers demo_world default_config
                           [("provider", JInt 1)] []) eq_refl))
             eq_refl ltac:(discriminate)).
Defined.

(** *** C9: an unknown provider is reported before the fields are checked *)

(** C9: a payload whose 'provider' is a non-empty string that lower-cases to
    no configured key makes chat, vision and batch fail with the
    unsupported-provider ValueError, whatever its other fields hold, and
    without any provider call. *)
Theorem unknown_provider_reported_first (w : world) (config : MCPServerConfig)
  (kv : list (string * json)) (s : list http_call) (name : string)
  (Hp : dict_item kv "provider" = JStr name) (Hne : name <> "")
  (Hunknown : lookup_client (lower name) (clients config) = None) :
  chat w config (JDict kv) s = (Err (ValueError ("Unsupported provider '" ++ lower name ++ "'.")), s)
  /\ vision w config (JDict kv) s = (Err (ValueError ("Unsupported provider '" ++ lower name ++ "'.")), s)
  /\ batch w config (JDict kv) s = (Err (ValueError ("Unsupported provider '" ++ lower name ++ "'.")), s).
Proof.
  unfold chat, chat_with, vision, vision_with, batch, batch_with. run_payload.
  rewrite Hp, (get_client_nonempty _ _ Hne), Hunknown.
  repeat split.
Qed.

Lemma unknown_provider_reported_first_witness :
  chat demo_world default_config (JDict [("provider", JStr "Bogus"); ("messages", JList [])]) []
    = (Err (ValueError "Unsupported provider 'bogus'."), []).
Proof.
  refine (proj1 (unknown_provider_reported_first demo_world default_config
                   [("provider", JStr "Bogus"); ("messages", JList [])] [] "Bogus"
                   eq_refl _ eq_refl)).
  discriminate.
Defined.

(** *** C10: the capability checks never fail *)

(** C10: every client [get_client] returns defines both [chat] and
    [vision]; so the operations behave the same whatever their
    "does not support" branch does: that branch is never taken. *)
Theorem capability_branches_unreachable :
  (forall config p n c, get_client config p = Ok (n, c) ->
     hasattr c "chat" = true /\ hasattr c "vision" = true)
  /\ (forall w u1 u2 config payload s,
        chat_with w u1 config payload s = chat_with w u2 config payload s
        /\ vision_with w u1 config payload s = vision_with w u2 config payload s
        /\ batch_with w u1 config payload s = batch_with w u2 config payload s).
Proof.
  split.
  - intros config p n c _. destruct c; split; reflexivity.
  - intros w u1 u2 config payload s. split; [|split].
    + unfold chat_with. apply bind_ext. intros p s1. apply bind_ext. intros [n c] s2.
      apply bind_ext. intros messages s3. destruct (nonempty_list messages); [|reflexivity].
      apply bind_ext. intros model s4. apply bind_ext. intros temperature s5.
      destruct c; reflexivity.
    + unfold vision_with. apply bind_ext. intros p s1. apply bind_ext. intros [n c] s2.
      apply bind_ext. intros prompt s3. apply bind_ext. intros images s4.
      destruct (nonempty_list images); [|reflexivity].
      apply bind_ext. intros prepared s5. apply bind_ext. intros model s6.
      destruct c; reflexivity.
    + unfold batch_with. apply bind_ext. intros p s1. apply bind_ext. intros [n c] s2.
      apply bind_ext. intros prompt s3. apply bind_ext. intros images s4.
      destruct (nonempty_list images); [|reflexivity].
      apply bind_ext. intros model s5.
      destruct c; reflexivity.
Qed.

Lemma capability_branches_unreachable_witness :
  get_client default_config (JStr "ollama") = Ok ("ollama", OllamaClient (ollama default_config))
  /\ hasattr (OllamaClient (ollama default_config)) "vision" = true.
Proof.
  split; [reflexivity|].
  exact (proj2 (proj1 capability_branches_unreachable default_config (JStr "ollama") "ollama"
                  (OllamaClient (ollama default_config)) eq_refl)).
Defined.

(** *** C5: normalisation of an image entry *)

Lemma load_image_unfold w path mime_hint s :
  load_image w path mime_hint s =
    match (if truthy mime_hint then Ok mime_hint else w_guess_type w path) with
    | Ok mime_type =>
        match w_open_read w path with
        | Ok raw => (Ok (JStr (b64encode raw), mime_type), s)
        | Err e => (Err e, s)
        end
    | Err e => (Err e, s)
    end.
Proof.
  unfold load_image, encode_image_to_base64. cbv [bind ret raise of_result].
  destruct (truthy mime_hint).
  - destruct (w_open_read w path); reflexivity.
  - destruct (w_guess_type w path); [|reflexivity]. destruct (w_open_read w path); reflexivity.
Qed.

(** C5: a bare string is loaded as a path (MIME type guessed, bytes read
    and base64-encoded); otherwise a dict is looked at for 'data_uri'
    (returned unchanged, no MIME type), then 'base64' (returned with its
    'mime'), then 'path' (loaded, with 'mime' as hint); anything else fails
    with the ValueError whose message names the accepted shapes.  Loading
    uses a truthy hint and otherwise the guessed type, then reads the
    file. *)
Theorem normalise_image_entry_order (w : world) (entry : json) (s : list http_call) :
  (forall path, entry = JStr path ->
     normalise_image_entry w entry s = load_image w entry JNull s)
  /\ (forall kv, entry = JDict kv -> dict_has kv "data_uri" = true ->
     normalise_image_entry w entry s = (Ok (dict_item kv "data_uri", JNull), s))
  /\ (forall kv, entry = JDict kv -> dict_has kv "data_uri" = false ->
     dict_has kv "base64" = true ->
     normalise_image_entry w entry s = (Ok (dict_item kv "base64", dict_item kv "mime"), s))
  /\ (forall kv, entry = JDict kv -> dict_has kv "data_uri" = false ->
     dict_has kv "base64" = false -> dict_has kv "path" = true ->
     normalise_image_entry w entry s = load_image w (dict_item kv "path") (dict_item kv "mime") s)
  /\ (match entry with
      | JStr _ => False
      | JDict kv => dict_has kv "data_uri" = false /\ dict_has kv "base64" = false
                    /\ dict_has kv "path" = false
      | _ => True
      end ->
      normalise_image_entry w entry s = (Err (ValueError unsupported_image_msg), s))
  /\ (forall path mime_hint, load_image w path mime_hint s =
        match (if truthy mime_hint then Ok mime_hint else w_guess_type w path) with
        | Ok mime_type =>
            match w_open_read w path with
            | Ok raw => (Ok (JStr (b64encode raw), mime_type), s)
            | Err e => (Err e, s)
            end
        | Err e => (Err e, s)
        end)
  /\ String.index 0 "path string" unsupported_image_msg <> None
  /\ String.index 0 "'path'" unsupported_image_msg <> None
  /\ String.index 0 "'base64'" unsupported_image_msg <> None
  /\ String.index 0 "'data_uri'" unsupported_image_msg <> None.
Proof.
  split; [|split; [|split; [|split; [|split; [|split; [|split; [|split; [|split]]]]]]]];
    try (vm_compute; discriminate).
  - intros path ->. reflexivity.
  - intros kv -> H. simpl. rewrite H. reflexivity.
  - intros kv -> H1 H2. simpl. rewrite H1, H2. reflexivity.
  - intros kv -> H1 H2 H3. simpl. rewrite H1, H2, H3. reflexivity.
  - destruct entry as [| | | | |l|kv]; try contradiction; try reflexivity.
    intros (H1 & H2 & H3). simpl. rewrite H1, H2, H3. reflexivity.
  - intros path mime_hint. apply load_image_unfold.
Qed.

Lemma normalise_image_entry_order_witness :
  normalise_image_entry demo_world (JStr "/img/man.png") []
    = load_image demo_world (JStr "/img/man.png") JNull [].
Proof.
  exact (proj1 (normalise_image_entry_order demo_world (JStr "/img/man.png") [])
           "/img/man.png" eq_refl).
Defined.

(** *** C6: provider formatting and the base64 round trip *)

Lemma after_comma_app (h d : string) :
  ~ In ","%char (list_ascii_of_string h) -> after_comma (h ++ String ","%char d) = d.
Proof.
  induction h as [|c h IH]; intros H.
  - reflexivity.
  - simpl in H |- *. destruct (Ascii.eqb_spec c ","%char) as [E|E].
    + exfalso. apply H. now left.
    + apply IH. intros Hin. apply H. now right.
Qed.

(** C6: for LM Studio a string already starting with "data:" is kept and
    any other becomes "data:<mime>;base64,<data>", the MIME type being
    "image/png" when none (or a falsy one) is known; for Ollama a data URI
    is cut to what follows its first comma and raw base64 is kept; a
    missing MIME type never makes formatting fail; and the base64 text
    [encode_image_to_base64] makes of a file decodes to the file's bytes. *)
Theorem format_for_provider_spec (w : world) (e : string) (mime_type : json) :
  (startswith e "data:" = true ->
     format_for_provider w "lmstudio" (JStr e) mime_type = Ok (JStr e))
  /\ (startswith e "data:" = false ->
     format_for_provider w "lmstudio" (JStr e) mime_type
       = Ok (JStr ("data:" ++ (if truthy mime_type then py_str w mime_type else "image/png")
                   ++ ";base64," ++ e)))
  /\ (forall h d, e = "data:" ++ h ++ "," ++ d -> ~ In ","%char (list_ascii_of_string h) ->
     format_for_provider w "ollama" (JStr e) mime_type = Ok (JStr d))
  /\ (startswith e "data:" = false ->
     format_for_provider w "ollama" (JStr e) mime_type = Ok (JStr e))
  /\ (forall provider, exists r, format_for_provider w provider (JStr e) JNull = Ok r)
  /\ (forall path raw s, w_open_read w path = Ok raw ->
     exists encoded, encode_image_to_base64 w path s = (Ok (JStr encoded), s)
                     /\ b64decode encoded = Some raw).
Proof.
  split; [|split; [|split; [|split; [|split]]]].
  - intros H. unfold format_for_provider. simpl. rewrite H. reflexivity.
  - intros H. unfold format_for_provider. simpl. rewrite H.
    unfold py_or. destruct (truthy mime_type); reflexivity.
  - intros h d -> Hh. unfold format_for_provider. simpl.
    replace (startswith (h ++ String ","%char d) "") with true
      by (destruct (h ++ String ","%char d); reflexivity).
    rewrite (after_comma_app h d Hh). reflexivity.
  - intros H. unfold format_for_provider. simpl. rewrite H. reflexivity.
  - intros provider. unfold format_for_provider.
    destruct (String.eqb provider "lmstudio"); [|destruct (String.eqb provider "ollama")];
      [destruct (startswith e "data:") ..|]; eexists; reflexivity.
  - intros path raw s H. exists (b64encode raw). split.
    + unfold encode_image_to_base64. cbv [bind ret raise of_result]. rewrite H. reflexivity.
    + apply b64_roundtrip.
Qed.

Lemma format_for_provider_spec_witness :
  format_for_provider demo_world "lmstudio" (JStr "TWFu") JNull
    = Ok (JStr "data:image/png;base64,TWFu").
Proof.
  exact (proj1 (proj2 (format_for_provider_spec demo_world "TWFu" JNull)) eq_refl).
Defined.

(** *** C7 and C1: the batch loop *)

Lemma nonempty_list_some v l : nonempty_list v = Some l -> v = JList l.
Proof. destruct v as [| | | | |[|x l']|]; simpl; congruence. Qed.

Lemma batch_loop_answers w n c prompt model items :
  forall s results s', batch_loop w n c prompt model items s = (Ok results, s') ->
  batch_answers w n c prompt model items results s s'.
Proof.
  induction items as [|image_entry rest IH]; intros s results s' H.
  - inversion H; subst. constructor.
  - cbn [batch_loop] in H. cbv [bind ret] in H.
    destruct (prepare_images w n [image_entry] s) as [[prepared|e] s1] eqn:P; [|discriminate].
    destruct (client_vision w c prompt prepared model s1) as [[response|e] s2] eqn:V; [|discriminate].
    destruct (batch_loop w n c prompt model rest s2) as [[rs|e] s3] eqn:B; [|discriminate].
    inversion H; subst. econstructor; eauto.
Qed.

Lemma batch_answers_length w n c prompt model items results s s' :
  batch_answers w n c prompt model items results s s' -> length results = length items.
Proof. induction 1; simpl; congruence. Qed.

(** C7: when [batch] succeeds, the payload was a dict whose provider
    resolved and whose 'images' is a list; the reply is
    {provider, results} with one result per entry, and [batch_answers]
    relates entries and results one to one, in order: each result is
    {image: the entry as given, response: the provider's answer to the
    vision call made for that entry}. *)
Theorem batch_results_follow_images (w : world) (config : MCPServerConfig) (payload : json)
  (s s' : list http_call) (res : json)
  (H : batch w config payload s = (Ok res, s')) :
  exists kv n c items results,
    payload = JDict kv
    /\ get_client config (dict_item kv "provider") = Ok (n, c)
    /\ dict_item kv "images" = JList items
    /\ res = JDict [("provider", JStr n); ("results", JList results)]
    /\ length results = length items
    /\ batch_answers w n c (py_or (dict_item kv "prompt") (JStr "Describe the image"))
         (dict_item kv "model") items results s s'.
Proof.
  destruct payload as [| | | | | |kv]; try (cbn in H; discriminate H).
  unfold batch, batch_with in H. run_payload_in H.
  destruct (get_client config (dict_item kv "provider")) as [[n c]|e] eqn:G; [|discriminate H].
  destruct (nonempty_list (dict_item kv "images")) as [items|] eqn:Hi; [|discriminate H].
  apply nonempty_list_some in Hi.
  assert (Hv : hasattr c "vision" = true) by (destruct c; reflexivity).
  rewrite Hv in H. simpl in H.
  destruct (batch_loop w n c (py_or (dict_item kv "prompt") (JStr "Describe the image"))
              (dict_item kv "model") items s) as [[results|e] s2] eqn:B; [|discriminate H].
  inversion H; subst.
  apply batch_loop_answers in B.
  exists kv, n, c, items, results. repeat split; auto.
  eapply batch_answers_length; eauto.
Qed.

Definition demo_batch_payload : json :=
  JDict [("provider", JStr "Ollama");
         ("images", JList [JStr "/img/man.png"; JDict [("base64", JStr "QUJD")]])].

Lemma batch_results_follow_images_witness :
  exists res s', batch demo_world default_config demo_batch_payload [] = (Ok res, s')
    /\ exists kv n c items results,
         demo_batch_payload = JDict kv
         /\ get_client default_config (dict_item kv "provider") = Ok (n, c)
         /\ dict_item kv "images" = JList items
         /\ res = JDict [("provider", JStr n); ("results", JList results)]
         /\ length results = length items
         /\ batch_answers demo_world n c (py_or (dict_item kv "prompt") (JStr "Describe the image"))
              (dict_item kv "model") items results [] s'.
Proof.
  destruct (batch demo_world default_config demo_batch_payload []) as [[res|e] s'] eqn:E.
  - exists res, s'. split; [reflexivity|].
    exact (batch_results_follow_images demo_world default_config demo_batch_payload [] s' res E).
  - vm_compute in E. discriminate E.
Defined.

Lemma batch_loop_abort w n c prompt model e post x s2 pre :
  forall s0 rs s1,
  batch_loop w n c prompt model pre s0 = (Ok rs, s1) ->
  batch_item w n c prompt model e s1 = (Err x, s2) ->
  batch_loop w n c prompt model (pre ++ e :: post) s0 = (Err x, s2).
Proof.
  induction pre as [|a pre IH]; intros s0 rs s1 Hpre He.
  - inversion Hpre; subst. cbn [batch_loop app]. unfold batch_item in He. cbv [bind ret] in He |- *.
    destruct (prepare_images w n [e] s1) as [[prepared|err] s3]; [|inversion He; reflexivity].
    destruct (client_vision w c prompt prepared model s3) as [[response|err] s4];
      [discriminate He | inversion He; reflexivity].
  - cbn [batch_loop app] in Hpre |- *. cbv [bind ret] in Hpre |- *.
    destruct (prepare_images w n [a] s0) as [[prepared|err] s3]; [|discriminate Hpre].
    destruct (client_vision w c prompt prepared model s3) as [[response|err] s4];
      [|discriminate Hpre].
    destruct (batch_loop w n c prompt model pre s4) as [[rs'|err] s5] eqn:B; [|discriminate Hpre].
    inversion Hpre; subst.
    rewrite (IH s4 rs' s1 B He). reflexivity.
Qed.

(** C1: in a batch whose provider resolves and whose 'images' list is
    [pre ++ e :: post], if every entry of [pre] succeeds and [e] then fails
    with [x], the whole batch fails with [x]: the results computed for
    [pre] are dropped and the entries of [post] are never processed (the
    call log ends where [e] failed). *)
Theorem batch_aborts_on_first_failure (w : world) (config : MCPServerConfig)
  (kv : list (string * json)) (n : string) (c : client)
  (pre : list json) (e : json) (post : list json) (rs : list json) (x : pyexc)
  (s0 s1 s2 : list http_call)
  (Hc : get_client config (dict_item kv "provider") = Ok (n, c))
  (Hi : dict_item kv "images" = JList (pre ++ e :: post))
  (Hpre : batch_loop w n c (py_or (dict_item kv "prompt") (JStr "Describe the image"))
            (dict_item kv "model") pre s0 = (Ok rs, s1))
  (He : batch_item w n c (py_or (dict_item kv "prompt") (JStr "Describe the image"))
          (dict_item kv "model") e s1 = (Err x, s2)) :
  batch w config (JDict kv) s0 = (Err x, s2).
Proof.
  unfold batch, batch_with. run_payload. rewrite Hc, Hi.
  assert (Hne : nonempty_list (JList (pre ++ e :: post)) = Some (pre ++ e :: post)%list)
    by (destruct pre; reflexivity).
  rewrite Hne.
  assert (Hv : hasattr c "vision" = true) by (destruct c; reflexivity).
  rewrite Hv. simpl.
  erewrite batch_loop_abort; [reflexivity | exact Hpre | exact He].
Qed.

Definition demo_failing_batch : list (string * json) :=
  [("images", JList [JDict [("data_uri", JStr "data:image/png;base64,QUJD")];
                     JStr "/no/such/file.png"; JStr "/img/man.png"])].

Lemma batch_aborts_on_first_failure_witness :
  exists rs s1 x s2,
    batch_loop demo_world "lmstudio" (LMStudioClient (lm_studio default_config))
      (JStr "Describe the image") JNull [JDict [("data_uri", JStr "data:image/png;base64,QUJD")]] []
      = (Ok rs, s1)
    /\ batch_item demo_world "lmstudio" (LMStudioClient (lm_studio default_config))
         (JStr "Describe the image") JNull (JStr "/no/such/file.png") s1 = (Err x, s2)
    /\ batch demo_world default_config (JDict demo_failing_batch) [] = (Err x, s2).
Proof.
  destruct (batch_loop demo_world "lmstudio" (LMStudioClient (lm_studio default_config))
             (JStr "Describe the image") JNull
             [JDict [("data_uri", JStr "data:image/png;base64,QUJD")]] []) as [[rs|e] s1] eqn:Hpre;
    [|vm_compute in Hpre; discriminate Hpre].
  destruct (batch_item demo_world "lmstudio" (LMStudioClient (lm_studio default_config))
             (JStr "Describe the image") JNull (JStr "/no/such/file.png") s1) as [[r|x] s2] eqn:He;
    [subst; vm_compute in He; discriminate He|].
  exists rs, s1, x, s2. split; [reflexivity|]. split; [exact He|].
  exact (batch_aborts_on_first_failure demo_world default_config demo_failing_batch "lmstudio"
           (LMStudioClient (lm_studio default_config))
           [JDict [("data_uri", JStr "data:image/png;base64,QUJD")]]
           (JStr "/no/such/file.png") [JStr "/img/man.png"] rs x [] s1 s2
           eq_refl eq_refl Hpre He).
Defined.

(** *** C2 and C8: the request handler *)








(** ** Further properties of the code *)

(** *** Helpers *)

Lemma get_client_ok config p n c :
  get_client config p = Ok (n, c) ->
  (n = "lmstudio" /\ c = LMStudioClient (lm_studio config))
  \/ (n = "ollama" /\ c = OllamaClient (ollama config)).
Proof.
  unfold get_client. destruct (py_or p _); try discriminate.
  rewrite lookup_clients.
  destruct (String.eqb_spec (lower s) "lmstudio") as [E|_].
  { intros H. inversion H; subst. left. rewrite E. auto. }
  destruct (String.eqb_spec (lower s) "ollama") as [E|_]; [|discriminate].
  intros H. inversion H; subst. right. rewrite E. auto.
Qed.

Lemma post_json_log w url payload headers s :
  snd (post_json w url payload headers s) = mk_call url payload headers :: s.
Proof. unfold post_json. destruct (w_transport w s _); reflexivity. Qed.

Lemma post_json_ok w url payload headers s r s' :
  post_json w url payload headers s = (Ok r, s') ->
  s' = mk_call url payload headers :: s /\ w_transport w s (mk_call url payload headers) = TJson r.
Proof.
  unfold post_json. destruct (w_transport w s _) eqn:T; intros H; inversion H; subst; auto.
Qed.

Lemma load_image_state w path mime s : snd (load_image w path mime s) = s.
Proof.
  rewrite load_image_unfold.
  destruct (if truthy mime then Ok mime else w_guess_type w path); [|reflexivity].
  destruct (w_open_read w path); reflexivity.
Qed.

Lemma load_image_indep w path mime s1 s2 :
  fst (load_image w path mime s1) = fst (load_image w path mime s2).
Proof.
  rewrite !load_image_unfold.
  destruct (if truthy mime then Ok mime else w_guess_type w path); [|reflexivity].
  destruct (w_open_read w path); reflexivity.
Qed.

Lemma normalise_state w e s : snd (normalise_image_entry w e s) = s.
Proof.
  destruct e as [| | | | | |kv]; try reflexivity.
  - apply load_image_state.
  - unfold normalise_image_entry. destruct (dict_has kv "data_uri"); [reflexivity|].
    destruct (dict_has kv "base64"); [reflexivity|].
    destruct (dict_has kv "path"); [apply load_image_state|reflexivity].
Qed.

Lemma normalise_indep w e s1 s2 :
  fst (normalise_image_entry w e s1) = fst (normalise_image_entry w e s2).
Proof.
  destruct e as [| | | | | |kv]; try reflexivity.
  - apply load_image_indep.
  - unfold normalise_image_entry. destruct (dict_has kv "data_uri"); [reflexivity|].
    destruct (dict_has kv "base64"); [reflexivity|].
    destruct (dict_has kv "path"); [apply load_image_indep|reflexivity].
Qed.

Lemma normalise_pair w e s : normalise_image_entry w e s = (fst (normalise_image_entry w e s), s).
Proof.
  rewrite <- (normalise_state w e s) at 3. destruct (normalise_image_entry w e s); reflexivity.
Qed.

Lemma prepare_images_state w n entries : forall s, snd (prepare_images w n entries s) = s.
Proof.
  induction entries as [|e rest IH]; intros s; [reflexivity|].
  cbn [prepare_images]. cbv [bind ret raise of_result].
  rewrite normalise_pair.
  destruct (fst (normalise_image_entry w e s)) as [[enc mime]|err]; [|reflexivity].
  destruct (format_for_provider w n enc mime); [|reflexivity].
  specialize (IH s). destruct (prepare_images w n rest s) as [[fs|err] s2]; simpl in IH; subst; reflexivity.
Qed.

Lemma prepare_images_pair w n entries s :
  prepare_images w n entries s = (fst (prepare_images w n entries s), s).
Proof.
  rewrite <- (prepare_images_state w n entries s) at 3. destruct (prepare_images w n entries s); reflexivity.
Qed.

(** The per-entry results of [_prepare_images]. *)
Lemma prepare_images_ok w n entries : forall s prepared,
  fst (prepare_images w n entries s) = Ok prepared ->
  Forall2 (fun e p => exists enc mime, fst (normalise_image_entry w e s) = Ok (enc, mime)
                                       /\ format_for_provider w n enc mime = Ok p)
    entries prepared.
Proof.
  induction entries as [|e rest IH]; intros s prepared H.
  - inversion H; subst. constructor.
  - cbn [prepare_images] in H. cbv [bind ret raise of_result] in H.
    rewrite normalise_pair in H.
    destruct (fst (normalise_image_entry w e s)) as [[enc mime]|err] eqn:N; [|discriminate H].
    destruct (format_for_provider w n enc mime) as [f|err] eqn:F; [|discriminate H].
    rewrite prepare_images_pair in H.
    destruct (fst (prepare_images w n rest s)) as [fs|err] eqn:P; [|discriminate H].
    inversion H; subst. constructor; eauto.
Qed.

Lemma prepare_images_error w n pre x post ps e s :
  fst (prepare_images w n pre s) = Ok ps ->
  fst (prepare_images w n [x] s) = Err e ->
  fst (prepare_images w n (pre ++ x :: post) s) = Err e.
Proof.
  revert ps. induction pre as [|a pre IH]; intros ps Hpre Hx.
  - cbn [app]. cbn [prepare_images] in Hx |- *. cbv [bind ret raise of_result] in Hx |- *.
    rewrite normalise_pair in Hx |- *.
    destruct (fst (normalise_image_entry w x s)) as [[enc mime]|err]; [|exact Hx].
    destruct (format_for_provider w n enc mime); [|exact Hx].
    rewrite prepare_images_pair.
    destruct (fst (prepare_images w n post s)); discriminate Hx.
  - cbn [app prepare_images] in Hpre |- *. cbv [bind ret raise of_result] in Hpre |- *.
    rewrite normalise_pair in Hpre |- *.
    destruct (fst (normalise_image_entry w a s)) as [[enc mime]|err]; [|discriminate Hpre].
    destruct (format_for_provider w n enc mime); [|discriminate Hpre].
    rewrite prepare_images_pair in Hpre |- *.
    destruct (fst (prepare_images w n pre s)) as [ps'|err] eqn:P; [|discriminate Hpre].
    rewrite prepare_images_pair. rewrite (IH ps' eq_refl Hx). reflexivity.
Qed.

Lemma startswith_data (x : string) : startswith ("data:" ++ x) "data:" = true.
Proof.
  unfold startswith. simpl. repeat (destruct (ascii_dec _ _); [|congruence]).
  destruct x; reflexivity.
Qed.

Lemma format_lmstudio_data w enc mime r :
  format_for_provider w "lmstudio" enc mime = Ok r -> is_data_uri r.
Proof.
  unfold format_for_provider. simpl. destruct enc; try discriminate.
  destruct (startswith s "data:") eqn:E; intros H; inversion H; subst.
  - exists s. auto.
  - eexists. split; [reflexivity|]. apply startswith_data.
Qed.

Lemma client_vision_ok w c prompt imgs model s r s' :
  client_vision w c prompt imgs model s = (Ok r, s') ->
  exists call, s' = call :: s /\ w_transport w s call = TJson r.
Proof.
  destruct c as [cfg|cfg]; simpl.
  - unfold lm_vision, lm_chat. destruct (truthy _); simpl; [|discriminate].
    intros H. apply post_json_ok in H as [-> H]. eauto.
  - unfold ollama_vision, ollama_chat. destruct (truthy _); simpl; [|discriminate].
    intros H. apply post_json_ok in H as [-> H]. eauto.
Qed.

Lemma batch_loop_calls w n c prompt model items :
  forall s results s', batch_loop w n c prompt model items s = (Ok results, s') ->
  exists calls, s' = (calls ++ s)%list /\ length calls = length items.
Proof.
  induction items as [|image_entry rest IH]; intros s results s' H.
  - inversion H; subst. exists []. auto.
  - cbn [batch_loop] in H. cbv [bind ret] in H.
    rewrite prepare_images_pair in H.
    destruct (fst (prepare_images w n [image_entry] s)) as [prepared|e]; [|discriminate].
    destruct (client_vision w c prompt prepared model s) as [[response|e] s2] eqn:V; [|discriminate].
    destruct (batch_loop w n c prompt model rest s2) as [[rs|e] s3] eqn:B; [|discriminate].
    inversion H; subst.
    destruct (client_vision_ok _ _ _ _ _ _ _ _ V) as [call [-> _]].
    destruct (IH _ _ _ B) as [calls [-> Hl]].
    exists (calls ++ [call])%list. rewrite <- app_assoc. split; [reflexivity|].
    rewrite length_app. simpl. lia.
Qed.

Lemma list_ascii_of_string_app (a b : string) :
  list_ascii_of_string (a ++ b) = (list_ascii_of_string a ++ list_ascii_of_string b)%list.
Proof. induction a as [|c a IH]; simpl; [reflexivity|]. now rewrite IH. Qed.

Lemma length_string_of_list_ascii (l : list ascii) :
  String.length (string_of_list_ascii l) = length l.
Proof. induction l as [|c l IH]; simpl; congruence. Qed.

Lemma drop_slash_head (l : list ascii) :
  match (fix drop l := match l with
                       | c :: l' => if Ascii.eqb c "/"%char then drop l' else l
                       | [] => []
                       end) l with
  | c :: _ => c <> "/"%char
  | [] => True
  end.
Proof.
  induction l as [|c l IH]; simpl; [exact I|].
  destruct (Ascii.eqb_spec c "/"%char); auto.
Qed.

Lemma rstrip_slash_app_slash (b : string) : rstrip_slash (b ++ "/") = rstrip_slash b.
Proof.
  unfold rstrip_slash. rewrite list_ascii_of_string_app, rev_app_distr. reflexivity.
Qed.

Lemma rstrip_slash_no_trailing (b pre : string) : rstrip_slash b <> pre ++ "/".
Proof.
  intros H. apply (f_equal list_ascii_of_string) in H.
  unfold rstrip_slash in H. rewrite list_ascii_of_string_of_list_ascii, list_ascii_of_string_app in H.
  apply (f_equal (@rev ascii)) in H. rewrite rev_involutive, rev_app_distr in H.
  pose proof (drop_slash_head (rev (list_ascii_of_string b))) as D.
  rewrite H in D. simpl in D. apply D. reflexivity.
Qed.

Ltac in_list := simpl; repeat (first [left; reflexivity | right]).

(** *** The provider clients *)

(** Both clients use the [model] argument when it is truthy and the
    configured default model otherwise; with neither they raise
    LLMClientError "No model configured ..." without contacting the
    provider; otherwise they make exactly one call: LM Studio to
    <base_url without trailing '/'>/v1/chat/completions with model,
    messages and temperature, Ollama to .../api/chat with model, messages
    and stream=false.  LM Studio sends an Authorization header exactly when
    its API key is a non-empty string, as "Bearer <key>"; Ollama sends only
    the Content-Type header. *)
Theorem client_chat_model_and_call (w : world) (cfg : ProviderConfig)
  (messages model temperature : json) (s : list http_call) :
  let model_name := py_or model (opt_str (default_model cfg)) in
  (truthy model_name = false ->
     lm_chat w cfg messages model temperature s
       = (Err (LLMClientError "No model configured for LM Studio."), s)
     /\ ollama_chat w cfg messages model s = (Err (LLMClientError "No model configured for Ollama."), s))
  /\ (truthy model_name = true ->
     snd (lm_chat w cfg messages model temperature s)
       = mk_call (rstrip_slash (base_url cfg) ++ "/v1/chat/completions")
           (JDict [("model", model_name); ("messages", messages); ("temperature", temperature)])
           (lm_headers cfg) :: s
     /\ snd (ollama_chat w cfg messages model s)
       = mk_call (rstrip_slash (base_url cfg) ++ "/api/chat")
           (JDict [("model", model_name); ("messages", messages); ("stream", JBool false)])
           [("Content-Type", "application/json")] :: s)
  /\ (forall v, In ("Authorization", v) (lm_headers cfg) <->
        exists k, api_key cfg = Some k /\ k <> "" /\ v = "Bearer " ++ k).
Proof.
  intros model_name. split; [|split].
  - intros H. unfold lm_chat, ollama_chat. fold model_name. rewrite H. split; reflexivity.
  - intros H. unfold lm_chat, ollama_chat. fold model_name. rewrite H. simpl.
    split; apply post_json_log.
  - intros v. unfold lm_headers. split.
    + intros [E|Hin]; [discriminate E|].
      destruct (api_key cfg) as [k|]; [|contradiction].
      destruct (String.eqb_spec k ""); [contradiction|].
      destruct Hin as [E|[]]. inversion E; subst. eauto.
    + intros (k & Hk & Hne & ->). rewrite Hk. apply String.eqb_neq in Hne. rewrite Hne.
      right. left. reflexivity.
Qed.

Lemma client_chat_model_and_call_witness :
  truthy (py_or JNull (opt_str (default_model (ollama default_config)))) = true
  /\ snd (ollama_chat demo_world (ollama default_config) (JList []) JNull [])
     = [mk_call ("http://localhost:11434" ++ "/api/chat")
          (JDict [("model", JStr "llava"); ("messages", JList []); ("stream", JBool false)])
          [("Content-Type", "application/json")]].
Proof.
  split; [reflexivity|].
  exact (proj2 (proj1 (proj2 (client_chat_model_and_call demo_world (ollama default_config)
                                (JList []) JNull JNull [])) eq_refl)).
Defined.

(** A base URL given with trailing slashes reaches the same endpoint as
    without them: both clients behave the same for [base_url] b and
    b ++ "/" (so for any number of trailing slashes), and the stripped base
    URL to which the endpoint path is appended never ends in '/'. *)
Theorem base_url_trailing_slashes (w : world) (b : string) (k m : option string) (t : Q)
  (messages model temperature : json) (s : list http_call) :
  lm_chat w (mk_provider_config (b ++ "/") k m t) messages model temperature s
    = lm_chat w (mk_provider_config b k m t) messages model temperature s
  /\ ollama_chat w (mk_provider_config (b ++ "/") k m t) messages model s
    = ollama_chat w (mk_provider_config b k m t) messages model s
  /\ (forall pre, rstrip_slash b <> pre ++ "/").
Proof.
  split; [|split].
  - unfold lm_chat, lm_headers. simpl. rewrite rstrip_slash_app_slash. reflexivity.
  - unfold ollama_chat. simpl. rewrite rstrip_slash_app_slash. reflexivity.
  - apply rstrip_slash_no_trailing.
Qed.

Lemma base_url_trailing_slashes_witness :
  lm_chat demo_world (mk_provider_config ("http://localhost:1234/" ++ "/") None (Some "vision") 60)
    (JList []) JNull JNull []
  = lm_chat demo_world (mk_provider_config "http://localhost:1234/" None (Some "vision") 60)
    (JList []) JNull JNull [].
Proof.
  exact (proj1 (base_url_trailing_slashes demo_world "http://localhost:1234/" None (Some "vision") 60
                  (JList []) JNull JNull [])).
Defined.

Lemma prepared_lmstudio_data w entries prepared s :
  Forall2 (fun e p => exists enc mime, fst (normalise_image_entry w e s) = Ok (enc, mime)
                                       /\ format_for_provider w "lmstudio" enc mime = Ok p)
    entries prepared ->
  Forall is_data_uri prepared.
Proof.
  induction 1 as [|e p es ps (enc & mime & _ & F) _ IH]; constructor; auto.
  eapply format_lmstudio_data; eauto.
Qed.

(** *** Image preparation *)

(** [_prepare_images] never contacts a provider; when it succeeds it gives
    one prepared image per entry, in order, each the formatting of that
    entry's normalisation (for LM Studio always a "data:" URI); when an
    entry fails, preparation fails with the error of the first failing
    entry. *)
Theorem prepare_images_per_entry (w : world) (n : string) (entries : list json) (s : list http_call) :
  snd (prepare_images w n entries s) = s
  /\ (forall prepared, fst (prepare_images w n entries s) = Ok prepared ->
       Forall2 (fun e p => exists enc mime, fst (normalise_image_entry w e s) = Ok (enc, mime)
                                            /\ format_for_provider w n enc mime = Ok p)
         entries prepared
       /\ length prepared = length entries
       /\ (n = "lmstudio" -> Forall is_data_uri prepared))
  /\ (forall pre x post ps e, entries = (pre ++ x :: post)%list ->
       fst (prepare_images w n pre s) = Ok ps -> fst (prepare_images w n [x] s) = Err e ->
       fst (prepare_images w n entries s) = Err e).
Proof.
  split; [|split].
  - apply prepare_images_state.
  - intros prepared H. pose proof (prepare_images_ok _ _ _ _ _ H) as F.
    split; [exact F|]. split.
    + symmetry. eapply Forall2_length; eauto.
    + intros ->. eapply prepared_lmstudio_data; eauto.
  - intros pre x post ps e -> Hpre Hx. eapply prepare_images_error; eauto.
Qed.

Lemma prepare_images_per_entry_witness :
  fst (prepare_images demo_world "lmstudio" [JStr "/img/man.png"] []) = Ok [JStr "data:image/png;base64,TWFu"]
  /\ length [JStr "data:image/png;base64,TWFu"] = length [JStr "/img/man.png"].
Proof.
  split; [reflexivity|].
  exact (proj1 (proj2 (proj1 (proj2 (prepare_images_per_entry demo_world "lmstudio" [JStr "/img/man.png"] []))
                         [JStr "data:image/png;base64,TWFu"] eq_refl))).
Defined.

(** *** The server operations and their provider calls *)

Ltac post_json_log_step :=
  match goal with
  | |- context [post_json ?w ?u ?p ?h ?s] =>
      let L := fresh "L" in
      pose proof (post_json_log w u p h s) as L;
      destruct (post_json w u p h s) as [[?|?] ?]; simpl in L |- *; exact L
  end.

(** [chat] passes the payload's messages on unchanged and makes one call:
    to LM Studio with the model (the payload's if truthy, else the default
    one), the messages and the payload's 'temperature' (0.2 when the key is
    absent, its value as given otherwise, null included); to Ollama with
    the model, the messages and stream=false, so that the payload's
    'temperature' is never sent there.  On success the reply is
    {provider: <resolved name>, response: <the provider's decoded JSON>}. *)
Theorem chat_outbound_call (w : world) (config : MCPServerConfig) (kv : list (string * json))
  (s : list http_call) (n : string) (c : client) (ms : list json)
  (Hc : get_client config (dict_item kv "provider") = Ok (n, c))
  (Hm : nonempty_list (dict_item kv "messages") = Some ms) :
  (n = "lmstudio" ->
     truthy (py_or (dict_item kv "model") (opt_str (default_model (lm_studio config)))) = true ->
     snd (chat w config (JDict kv) s)
       = mk_call (rstrip_slash (base_url (lm_studio config)) ++ "/v1/chat/completions")
           (JDict [("model", py_or (dict_item kv "model") (opt_str (default_model (lm_studio config))));
                   ("messages", JList ms);
                   ("temperature", match assoc_get "temperature" kv with
                                   | Some t => t
                                   | None => JFloat (1 # 5)
                                   end)])
           (lm_headers (lm_studio config)) :: s)
  /\ (n = "ollama" ->
     truthy (py_or (dict_item kv "model") (opt_str (default_model (ollama config)))) = true ->
     snd (chat w config (JDict kv) s)
       = mk_call (rstrip_slash (base_url (ollama config)) ++ "/api/chat")
           (JDict [("model", py_or (dict_item kv "model") (opt_str (default_model (ollama config))));
                   ("messages", JList ms);
                   ("stream", JBool false)])
           [("Content-Type", "application/json")] :: s)
  /\ (forall r s', chat w config (JDict kv) s = (Ok r, s') ->
       exists call j, s' = call :: s /\ w_transport w s call = TJson j
                      /\ r = JDict [("provider", JStr n); ("response", j)]).
Proof.
  pose proof (nonempty_list_some _ _ Hm) as Hms.
  unfold chat, chat_with. run_payload. rewrite Hc, Hm, Hms. unfold py_get_default.
  destruct (get_client_ok _ _ _ _ Hc) as [[-> ->]|[-> ->]].
  - split; [|split].
    + intros _ T. destruct (assoc_get "temperature" kv) as [tmp|]; cbv [bind ret];
        unfold client_chat, lm_chat; simpl; rewrite T; simpl; post_json_log_step.
    + intros E. discriminate E.
    + intros r s'. destruct (assoc_get "temperature" kv) as [tmp|]; cbv [bind ret];
        unfold client_chat, lm_chat; simpl;
        (destruct (truthy _); simpl; [|discriminate]);
        destruct (post_json _ _ _ _ s) as [[j|e] s1] eqn:P; intros H; inversion H; subst;
        apply post_json_ok in P as [-> T]; eauto.
  - split; [|split].
    + intros E. discriminate E.
    + intros _ T. destruct (assoc_get "temperature" kv) as [tmp|]; cbv [bind ret];
        unfold client_chat, ollama_chat; simpl; rewrite T; simpl; post_json_log_step.
    + intros r s'. destruct (assoc_get "temperature" kv) as [tmp|]; cbv [bind ret];
        unfold client_chat, ollama_chat; simpl;
        (destruct (truthy _); simpl; [|discriminate]);
        destruct (post_json _ _ _ _ s) as [[j|e] s1] eqn:P; intros H; inversion H; subst;
        apply post_json_ok in P as [-> T]; eauto.
Qed.

Lemma chat_outbound_call_witness :
  snd (chat demo_world default_config
         (JDict [("messages", JList [JStr "hi"]); ("temperature", JNull)]) [])
  = [mk_call (rstrip_slash "http://localhost:1234" ++ "/v1/chat/completions")
       (JDict [("model", JStr "vision"); ("messages", JList [JStr "hi"]); ("temperature", JNull)])
       (lm_headers (lm_studio default_config))].
Proof.
  exact (proj1 (chat_outbound_call demo_world default_config
                  [("messages", JList [JStr "hi"]); ("temperature", JNull)] []
                  "lmstudio" (LMStudioClient (lm_studio default_config)) [JStr "hi"]
                  eq_refl eq_refl) eq_refl eq_refl).
Defined.

(** A successful [vision] makes exactly one provider call, however many
    images it was given, and answers {provider, response: <the decoded
    reply>}.  Every entry of 'images' is prepared first, in order.  LM
    Studio receives one user message whose content is the prompt
    ('Describe the image' when the payload's is falsy) as input_text
    followed by one input_image per entry, in order, each a "data:" URI,
    with temperature 0.2; Ollama receives one user message with the prompt
    as content and the prepared images, in order, under "images". *)
Theorem vision_single_provider_call (w : world) (config : MCPServerConfig)
  (kv : list (string * json)) (s s' : list http_call) (res : json)
  (H : vision w config (JDict kv) s = (Ok res, s')) :
  let prompt := py_or (dict_item kv "prompt") (JStr "Describe the image") in
  exists n c entries prepared call j,
    get_client config (dict_item kv "provider") = Ok (n, c)
    /\ dict_item kv "images" = JList entries
    /\ fst (prepare_images w n entries s) = Ok prepared
    /\ length prepared = length entries
    /\ s' = call :: s
    /\ w_transport w s call = TJson j
    /\ res = JDict [("provider", JStr n); ("response", j)]
    /\ (n = "lmstudio" ->
          Forall is_data_uri prepared
          /\ call = mk_call (rstrip_slash (base_url (lm_studio config)) ++ "/v1/chat/completions")
               (JDict [("model", py_or (dict_item kv "model") (opt_str (default_model (lm_studio config))));
                       ("messages",
                         JList [JDict [("role", JStr "user");
                                       ("content", JList (JDict [("type", JStr "input_text"); ("text", prompt)]
                                          :: map (fun image => JDict [("type", JStr "input_image"); ("image", image)])
                                                 prepared))]]);
                       ("temperature", JFloat (1 # 5))])
               (lm_headers (lm_studio config)))
    /\ (n = "ollama" ->
          call = mk_call (rstrip_slash (base_url (ollama config)) ++ "/api/chat")
               (JDict [("model", py_or (dict_item kv "model") (opt_str (default_model (ollama config))));
                       ("messages", JList [JDict [("role", JStr "user"); ("content", prompt);
                                                  ("images", JList prepared)]]);
                       ("stream", JBool false)])
               [("Content-Type", "application/json")]).
Proof.
  intros prompt.
  unfold vision, vision_with in H. run_payload_in H.
  destruct (get_client config (dict_item kv "provider")) as [[n c]|e] eqn:G; [|discriminate H].
  destruct (nonempty_list (dict_item kv "images")) as [entries|] eqn:Hi; [|discriminate H].
  assert (Hne : entries <> []) by (destruct (dict_item kv "images") as [| | | | |[|]|]; simpl in Hi; congruence).
  apply nonempty_list_some in Hi.
  rewrite prepare_images_pair in H.
  destruct (fst (prepare_images w n entries s)) as [prepared|e] eqn:P; [|discriminate H].
  pose proof (prepare_images_ok _ _ _ _ _ P) as F.
  assert (Hlen : length prepared = length entries) by (symmetry; eapply Forall2_length; eauto).
  fold prompt in H.
  destruct (get_client_ok _ _ _ _ G) as [[-> ->]|[-> ->]]; simpl in H.
  - unfold lm_vision, lm_chat in H.
    destruct (truthy _); simpl in H; [|discriminate H].
    destruct (post_json _ _ _ _ s) as [[j|e] s1] eqn:PJ; inversion H; subst.
    apply post_json_ok in PJ as [-> T].
    do 6 eexists. repeat (split; [eassumption || reflexivity|]).
    split; [intros _; split; [eapply prepared_lmstudio_data; eauto | reflexivity]|].
    intros E. discriminate E.
  - unfold ollama_vision, ollama_chat in H.
    destruct prepared as [|p ps]; [destruct entries; [contradiction | discriminate Hlen]|].
    destruct (truthy _); simpl in H; [|discriminate H].
    destruct (post_json _ _ _ _ s) as [[j|e] s1] eqn:PJ; inversion H; subst.
    apply post_json_ok in PJ as [-> T].
    do 6 eexists. repeat (split; [eassumption || reflexivity|]).
    split; [intros E; discriminate E|]. reflexivity.
Qed.

Lemma vision_single_provider_call_witness :
  exists res s', vision demo_world default_config (JDict [("images", JList [JStr "/img/man.png"])]) []
                   = (Ok res, s')
    /\ let prompt := py_or (dict_item [("images", JList [JStr "/img/man.png"])] "prompt")
                           (JStr "Describe the image") in
       exists n c entries prepared call j,
         get_client default_config (dict_item [("images", JList [JStr "/img/man.png"])] "provider") = Ok (n, c)
         /\ dict_item [("images", JList [JStr "/img/man.png"])] "images" = JList entries
         /\ fst (prepare_images demo_world n entries []) = Ok prepared
         /\ length prepared = length entries
         /\ s' = [call]
         /\ w_transport demo_world [] call = TJson j
         /\ res = JDict [("provider", JStr n); ("response", j)]
         /\ (n = "lmstudio" ->
               Forall is_data_uri prepared
               /\ call = mk_call (rstrip_slash (base_url (lm_studio default_config)) ++ "/v1/chat/completions")
                    (JDict [("model", py_or (dict_item [("images", JList [JStr "/img/man.png"])] "model")
                                            (opt_str (default_model (lm_studio default_config))));
                            ("messages",
                              JList [JDict [("role", JStr "user");
                                            ("content", JList (JDict [("type", JStr "input_text"); ("text", prompt)]
                                               :: map (fun image => JDict [("type", JStr "input_image"); ("image", image)])
                                                      prepared))]]);
                            ("temperature", JFloat (1 # 5))])
                    (lm_headers (lm_studio default_config)))
         /\ (n = "ollama" ->
               call = mk_call (rstrip_slash (base_url (ollama default_config)) ++ "/api/chat")
                    (JDict [("model", py_or (dict_item [("images", JList [JStr "/img/man.png"])] "model")
                                            (opt_str (default_model (ollama default_config))));
                            ("messages", JList [JDict [("role", JStr "user"); ("content", prompt);
                                                       ("images", JList prepared)]]);
                            ("stream", JBool false)])
                    [("Content-Type", "application/json")]).
Proof.
  destruct (vision demo_world default_config (JDict [("images", JList [JStr "/img/man.png"])]) [])
    as [[res|e] s'] eqn:E; [|vm_compute in E; discriminate E].
  exists res, s'. split; [reflexivity|].
  exact (vision_single_provider_call demo_world default_config [("images", JList [JStr "/img/man.png"])]
           [] s' res E).
Defined.

(** An image entry that cannot be prepared (unreadable file, failing MIME
    guess, non-string data, unsupported shape) makes [vision] fail with the
    error of the first such entry, before any provider is contacted, even
    when the other entries are fine. *)
Theorem vision_bad_image_no_call (w : world) (config : MCPServerConfig) (kv : list (string * json))
  (s : list http_call) (n : string) (c : client) (pre post : list json) (x : json)
  (ps : list json) (e : pyexc)
  (Hc : get_client config (dict_item kv "provider") = Ok (n, c))
  (Hi : dict_item kv "images" = JList (pre ++ x :: post))
  (Hpre : fst (prepare_images w n pre s) = Ok ps)
  (Hx : fst (prepare_images w n [x] s) = Err e) :
  vision w config (JDict kv) s = (Err e, s).
Proof.
  unfold vision, vision_with. run_payload. rewrite Hc, Hi.
  assert (Hne : nonempty_list (JList (pre ++ x :: post)) = Some (pre ++ x :: post)%list)
    by (destruct pre; reflexivity).
  rewrite Hne, prepare_images_pair, (prepare_images_error _ _ _ _ _ _ _ _ Hpre Hx).
  reflexivity.
Qed.

Lemma vision_bad_image_no_call_witness :
  vision demo_world default_config
    (JDict [("images", JList [JStr "/img/man.png"; JStr "/no/such/file.png"])]) []
  = (Err (OSError "[Errno 2] No such file or directory: '/no/such/file.png'"), []).
Proof.
  exact (vision_bad_image_no_call demo_world default_config
           [("images", JList [JStr "/img/man.png"; JStr "/no/such/file.png"])] []
           "lmstudio" (LMStudioClient (lm_studio default_config))
           [JStr "/img/man.png"] [] (JStr "/no/such/file.png") [JStr "data:image/png;base64,TWFu"]
           (OSError "[Errno 2] No such file or directory: '/no/such/file.png'")
           eq_refl eq_refl eq_refl eq_refl).
Defined.

(** A successful [batch] makes exactly one provider call per entry of
    'images': the call log grows by as many calls as there are entries. *)
Theorem batch_one_call_per_image (w : world) (config : MCPServerConfig) (payload : json)
  (s s' : list http_call) (res : json)
  (H : batch w config payload s = (Ok res, s')) :
  exists kv items calls,
    payload = JDict kv /\ dict_item kv "images" = JList items
    /\ s' = (calls ++ s)%list /\ length calls = length items.
Proof.
  destruct payload as [| | | | | |kv]; try (cbn in H; discriminate H).
  unfold batch, batch_with in H. run_payload_in H.
  destruct (get_client config (dict_item kv "provider")) as [[n c]|e] eqn:G; [|discriminate H].
  destruct (nonempty_list (dict_item kv "images")) as [items|] eqn:Hi; [|discriminate H].
  apply nonempty_list_some in Hi.
  assert (Hv : hasattr c "vision" = true) by (destruct c; reflexivity).
  rewrite Hv in H. simpl in H.
  destruct (batch_loop w n c (py_or (dict_item kv "prompt") (JStr "Describe the image"))
              (dict_item kv "model") items s) as [[results|e] s2] eqn:B; [|discriminate H].
  inversion H; subst.
  destruct (batch_loop_calls _ _ _ _ _ _ _ _ _ B) as (calls & -> & Hl).
  exists kv, items, calls. auto.
Qed.

Lemma batch_one_call_per_image_witness :
  exists res s', batch demo_world default_config demo_batch_payload [] = (Ok res, s')
    /\ exists kv items calls,
         demo_batch_payload = JDict kv /\ dict_item kv "images" = JList items
         /\ s' = (calls ++ [])%list /\ length calls = length items.
Proof.
  destruct (batch demo_world default_config demo_batch_payload []) as [[res|e] s'] eqn:E;
    [|vm_compute in E; discriminate E].
  exists res, s'. split; [reflexivity|].
  exact (batch_one_call_per_image demo_world default_config demo_batch_payload [] s' res E).
Defined.

(** *** The request handler *)









(** [_parse_json] reads exactly Content-Length bytes: bytes after them
    change nothing; and a Content-Length that is zero or negative (or
    missing, read as "0") is "Missing request body" whatever follows. *)
Theorem parse_json_reads_declared_length (w : world) (req : request) (n : Z)
  (Hn : w_py_int w (match content_length req with Some t => t | None => "0" end) = inl n) :
  (forall extra, (Z.to_nat n <= length (body req))%nat ->
     parse_json w (mk_request (command req) (target req) (content_length req) (body req ++ extra)%list)
     = parse_json w req)
  /\ ((n <= 0)%Z -> forall b,
        parse_json w (mk_request (command req) (target req) (content_length req) b)
        = Err (ValueError "Missing request body")).
Proof.
  split.
  - intros extra Hle. unfold parse_json. simpl. rewrite Hn.
    destruct (Z.leb n 0); [reflexivity|].
    unfold rfile_read. destruct (Z.ltb ssize_max n); [reflexivity|].
    destruct (w_read_alloc w n); [reflexivity|].
    rewrite firstn_app.
    replace (Z.to_nat n - length (body req))%nat with 0%nat by lia.
    rewrite firstn_O, app_nil_r. reflexivity.
  - intros Hle b. unfold parse_json. simpl. rewrite Hn.
    apply Z.leb_le in Hle. rewrite Hle. reflexivity.
Qed.

Lemma parse_json_reads_declared_length_witness :
  parse_json demo_world (mk_request "POST" "/chat" (Some "2") (list_byte_of_string "{}" ++ list_byte_of_string "xyz")%list)
  = parse_json demo_world (mk_request "POST" "/chat" (Some "2") (list_byte_of_string "{}")).
Proof.
  exact (proj1 (parse_json_reads_declared_length demo_world
                  (mk_request "POST" "/chat" (Some "2") (list_byte_of_string "{}")) 2 eq_refl)
           (list_byte_of_string "xyz") ltac:(simpl; lia)).
Defined.

(** A POST to /chat, /analyze or /batch whose body is valid JSON but not an
    object (a list, a string, a number, true/false or null) is answered 500
    with "'<type>' object has no attribute 'get'", without any provider
    call: the operations call [payload.get] unguarded and AttributeError is
    not among the errors answered 400. *)
Theorem non_object_body_is_server_error (w : world) (config : MCPServerConfig) (req : request)
  (s : list http_call) (payload : json)
  (Hcmd : command req = "POST")
  (Hroute : In (w_url_path w (target req)) ["/chat"; "/analyze"; "/batch"])
  (Hp : parse_json w req = Ok payload)
  (Hnd : match payload with JDict _ => False | _ => True end) :
  handle_request w config req s
    = (Ok (Reply 500 (error_json ("'" ++ py_type_name payload ++ "' object has no attribute 'get'"))), s).
Proof.
  assert (R : handle_request w config req s = do_POST w config req s)
    by (unfold handle_request; rewrite Hcmd; reflexivity).
  rewrite R. unfold do_POST. rewrite Hp.
  destruct Hroute as [E|[E|[E|[]]]]; rewrite <- E; destruct payload; try contradiction; reflexivity.
Qed.

Lemma non_object_body_is_server_error_witness :
  handle_request list_body_world default_config
    (mk_request "POST" "/chat" (Some "2") (list_byte_of_string "[]")) []
  = (Ok (Reply 500 (error_json "'list' object has no attribute 'get'")), []).
Proof.
  exact (non_object_body_is_server_error list_body_world default_config
           (mk_request "POST" "/chat" (Some "2") (list_byte_of_string "[]")) [] (JList [])
           eq_refl ltac:(in_list) eq_refl I).
Defined.

(** *** Configuration *)

(** The diagnostics served on GET /config never depend on the value of an
    API key, only on whether one is set: replacing either key by another
    one that is equally set or unset leaves the response unchanged (a set
    key is shown as "<hidden>"). *)
Theorem config_endpoint_hides_api_keys (w : world) (c : MCPServerConfig) (k1 k2 : option string)
  (req : request)
  (H1 : truthy (opt_str k1) = truthy (opt_str (api_key (lm_studio c))))
  (H2 : truthy (opt_str k2) = truthy (opt_str (api_key (ollama c)))) :
  do_GET w (with_api_keys c k1 k2) req = do_GET w c req.
Proof.
  unfold do_GET. destruct (String.eqb _ "/health"); [reflexivity|].
  destruct (String.eqb _ "/config"); [|reflexivity].
  unfold as_dict, to_dict, with_api_keys.
  cbn [lm_studio ollama api_key base_url default_model timeout host port default_provider].
  rewrite H1, H2. reflexivity.
Qed.

Lemma config_endpoint_hides_api_keys_witness :
  do_GET demo_world (with_api_keys (with_api_keys default_config (Some "sk-one") None) (Some "sk-two") None)
    (mk_request "GET" "/config" None [])
  = do_GET demo_world (with_api_keys default_config (Some "sk-one") None) (mk_request "GET" "/config" None []).
Proof.
  exact (config_endpoint_hides_api_keys demo_world (with_api_keys default_config (Some "sk-one") None)
           (Some "sk-two") None (mk_request "GET" "/config" None []) eq_refl eq_refl).
Defined.

Lemma from_env_ok environ py_int py_float c :
  from_env environ py_int py_float = Ok c ->
  host c = environ_get environ "DARKTABLE_MCP_HOST" "127.0.0.1"
  /\ int_of py_int (environ_get environ "DARKTABLE_MCP_PORT" "8082") = Ok (port c)
  /\ default_provider c = environ_get environ "DARKTABLE_MCP_PROVIDER" "lmstudio"
  /\ lm_studio_factory environ py_float = Ok (lm_studio c)
  /\ ollama_factory environ py_float = Ok (ollama c).
Proof.
  unfold from_env.
  destruct (int_of py_int _) as [p|e] eqn:P; [|discriminate].
  destruct (lm_studio_factory environ py_float) as [lm|e] eqn:L; [|discriminate].
  destruct (ollama_factory environ py_float) as [ol|e] eqn:O; [|discriminate].
  intros H. inversion H; subst. simpl. auto.
Qed.

Lemma from_env_port_error environ py_int py_float m :
  py_int (environ_get environ "DARKTABLE_MCP_PORT" "8082") = inr m ->
  from_env environ py_int py_float = Err (ValueError m).
Proof. intros H. unfold from_env, int_of. rewrite H. reflexivity. Qed.

(** Rewrites [e n] into [e' n] for every variable [n] the hypothesis
    [H : forall n, P n -> e n = e' n] covers. *)
Ltac env_agree H :=
  repeat match goal with
  | |- context [?e ?n] =>
      match type of H with
      | forall x, _ -> e x = _ => rewrite (H n) by (first [discriminate | in_list])
      end
  end.

(** [MCPServerConfig.from_env] reads ten variables and nothing else:
    environments that agree on DARKTABLE_MCP_HOST, DARKTABLE_MCP_PORT,
    DARKTABLE_MCP_PROVIDER, LM_STUDIO_URL, LM_STUDIO_API_KEY,
    LM_STUDIO_MODEL, LM_STUDIO_TIMEOUT, OLLAMA_URL, OLLAMA_MODEL and
    OLLAMA_TIMEOUT give the same result, and the Ollama client never gets
    an API key.  It fails only with a ValueError, and exactly when the
    port, the LM Studio timeout or the Ollama timeout does not parse, the
    port being looked at first.  With no variable set it gives the
    built-in defaults (127.0.0.1:8082, lmstudio, http://localhost:1234
    with model vision, http://localhost:11434 with model llava, 60 s
    timeouts). *)
Theorem from_env_spec (environ environ' : string -> option string)
  (py_int : string -> Z + string) (py_float : string -> Q + string) :
  ((forall name, In name from_env_vars -> environ name = environ' name) ->
     from_env environ py_int py_float = from_env environ' py_int py_float)
  /\ (forall c, from_env environ py_int py_float = Ok c -> api_key (ollama c) = None)
  /\ (forall e, from_env environ py_int py_float = Err e ->
        exists m, e = ValueError m
          /\ (py_int (environ_get environ "DARKTABLE_MCP_PORT" "8082") = inr m
              \/ py_float (environ_get environ "LM_STUDIO_TIMEOUT" "60") = inr m
              \/ py_float (environ_get environ "OLLAMA_TIMEOUT" "60") = inr m))
  /\ ((exists z, py_int (environ_get environ "DARKTABLE_MCP_PORT" "8082") = inl z) ->
      (exists q, py_float (environ_get environ "LM_STUDIO_TIMEOUT" "60") = inl q) ->
      (exists q, py_float (environ_get environ "OLLAMA_TIMEOUT" "60") = inl q) ->
      exists c, from_env environ py_int py_float = Ok c)
  /\ (forall m, py_int (environ_get environ "DARKTABLE_MCP_PORT" "8082") = inr m ->
        from_env environ py_int py_float = Err (ValueError m))
  /\ ((forall name, environ name = None) -> py_int "8082" = inl 8082%Z ->
      py_float "60" = inl (60 # 1)%Q -> from_env environ py_int py_float = Ok default_config).
Proof.
  split; [|split; [|split; [|split; [|split]]]].
  - intros H. unfold from_env, lm_studio_factory, ollama_factory, environ_get.
    env_agree H. reflexivity.
  - intros c H. destruct (from_env_ok _ _ _ _ H) as (_ & _ & _ & _ & Ho).
    revert Ho. unfold ollama_factory. destruct (float_of _ _); intros E; inversion E; reflexivity.
  - intros e. unfold from_env, int_of, lm_studio_factory, ollama_factory, float_of.
    destruct (py_int _) as [z|m] eqn:Pi;
      [|intros E; inversion E; subst; exists m; auto].
    destruct (py_float (environ_get environ "LM_STUDIO_TIMEOUT" "60")) as [q|m] eqn:Pl;
      [|intros E; inversion E; subst; exists m; auto].
    destruct (py_float (environ_get environ "OLLAMA_TIMEOUT" "60")) as [q'|m] eqn:Po;
      [|intros E; inversion E; subst; exists m; auto].
    discriminate.
  - intros [z Pi] [q Pl] [q' Po]. unfold from_env, int_of, lm_studio_factory, ollama_factory, float_of.
    rewrite Pi, Pl, Po. eexists. reflexivity.
  - intros m. apply from_env_port_error.
  - intros He Hi Hf. unfold from_env, lm_studio_factory, ollama_factory, environ_get, int_of, float_of.
    rewrite !He, Hi, Hf. reflexivity.
Qed.

Lemma from_env_spec_witness :
  from_env host_env (w_py_int demo_world) demo_py_float
  = from_env (fun n => if String.eqb n "DARKTABLE_MCP_HOST" then Some "10.0.0.5" else None)
      (w_py_int demo_world) demo_py_float
  /\ from_env (fun _ => None) (w_py_int demo_world) demo_py_float = Ok default_config.
Proof.
  split.
  - apply (proj1 (from_env_spec host_env
                    (fun n => if String.eqb n "DARKTABLE_MCP_HOST" then Some "10.0.0.5" else None)
                    (w_py_int demo_world) demo_py_float)).
    intros name i. simpl in i. repeat (destruct i as [<-|i]; [reflexivity|]). destruct i.
  - exact (proj2 (proj2 (proj2 (proj2 (proj2 (from_env_spec (fun _ => None) (fun _ => None)
                    (w_py_int demo_world) demo_py_float)))))
             (fun _ => eq_refl) eq_refl eq_refl).
Defined.

(** DARKTABLE_MCP_PROVIDER is not checked when the configuration is read:
    any value becomes the default provider, and when it does not
    lower-case to lmstudio or ollama (the empty string included) every
    chat, vision and batch request that names no provider fails with
    ValueError "Unsupported provider '<lowered value>'." without any
    provider call. *)
Theorem env_provider_not_validated (environ : string -> option string)
  (py_int : string -> Z + string) (py_float : string -> Q + string) (c : MCPServerConfig) (v : string)
  (Hc : from_env environ py_int py_float = Ok c)
  (Hv : environ "DARKTABLE_MCP_PROVIDER" = Some v)
  (H1 : lower v <> "lmstudio") (H2 : lower v <> "ollama") :
  default_provider c = v
  /\ (forall p, truthy p = false ->
        get_client c p = Err (ValueError ("Unsupported provider '" ++ lower v ++ "'.")))
  /\ (forall w kv s, truthy (dict_item kv "provider") = false ->
        chat w c (JDict kv) s = (Err (ValueError ("Unsupported provider '" ++ lower v ++ "'.")), s)
        /\ vision w c (JDict kv) s = (Err (ValueError ("Unsupported provider '" ++ lower v ++ "'.")), s)
        /\ batch w c (JDict kv) s = (Err (ValueError ("Unsupported provider '" ++ lower v ++ "'.")), s)).
Proof.
  destruct (from_env_ok _ _ _ _ Hc) as (_ & _ & Hd & _ & _).
  unfold environ_get in Hd. rewrite Hv in Hd.
  assert (G : forall p, truthy p = false ->
            get_client c p = Err (ValueError ("Unsupported provider '" ++ lower v ++ "'."))).
  { intros p Hp. unfold get_client, py_or. rewrite Hp, Hd.
    replace (if truthy (JStr v) then JStr v else JStr v) with (JStr v) by (destruct (truthy (JStr v)); reflexivity).
    rewrite lookup_clients. apply String.eqb_neq in H1, H2. rewrite H1, H2. reflexivity. }
  split; [exact Hd|]. split; [exact G|].
  intros w kv s Hp. unfold chat, chat_with, vision, vision_with, batch, batch_with. run_payload.
  rewrite (G _ Hp). repeat split.
Qed.

Lemma env_provider_not_validated_witness :
  default_provider (mk_server_config "127.0.0.1" 8082 "" (lm_studio default_config) (ollama default_config)) = ""
  /\ batch demo_world (mk_server_config "127.0.0.1" 8082 "" (lm_studio default_config) (ollama default_config))
       (JDict [("images", JList [JStr "/img/man.png"])]) []
     = (Err (ValueError "Unsupported provider ''."), []).
Proof.
  destruct (env_provider_not_validated empty_provider_env (w_py_int demo_world) demo_py_float
              (mk_server_config "127.0.0.1" 8082 "" (lm_studio default_config) (ollama default_config)) ""
              eq_refl eq_refl ltac:(discriminate) ltac:(discriminate)) as (Hd & _ & Ops).
  split; [exact Hd|].
  exact (proj2 (proj2 (Ops demo_world [("images", JList [JStr "/img/man.png"])] [] eq_refl))).
Defined.

(** *** Command line *)

(** [main]'s configuration: a flag that is given makes its environment
    variable irrelevant (--host for DARKTABLE_MCP_HOST, --provider for
    DARKTABLE_MCP_PROVIDER, --port for DARKTABLE_MCP_PORT as long as it
    parses), but the environment is read first, so a DARKTABLE_MCP_PORT
    that is not an integer stops the start with its ValueError even when
    --port is given; the providers' settings always come from the
    environment. *)
Theorem cli_overrides_environment (environ environ' : string -> option string)
  (py_int : string -> Z + string) (py_float : string -> Q + string) (args : cli_args) :
  ((exists h, arg_host args = Some h) ->
     (forall n, n <> "DARKTABLE_MCP_HOST" -> environ n = environ' n) ->
     main_config environ py_int py_float args = main_config environ' py_int py_float args)
  /\ ((exists d, arg_provider args = Some d) ->
     (forall n, n <> "DARKTABLE_MCP_PROVIDER" -> environ n = environ' n) ->
     main_config environ py_int py_float args = main_config environ' py_int py_float args)
  /\ ((exists p, arg_port args = Some p) ->
     (forall n, n <> "DARKTABLE_MCP_PORT" -> environ n = environ' n) ->
     (exists z, py_int (environ_get environ "DARKTABLE_MCP_PORT" "8082") = inl z) ->
     (exists z, py_int (environ_get environ' "DARKTABLE_MCP_PORT" "8082") = inl z) ->
     main_config environ py_int py_float args = main_config environ' py_int py_float args)
  /\ (forall m, py_int (environ_get environ "DARKTABLE_MCP_PORT" "8082") = inr m ->
        main_config environ py_int py_float args = Err (ValueError m))
  /\ (forall c, main_config environ py_int py_float args = Ok c ->
        exists c0, from_env environ py_int py_float = Ok c0
                   /\ lm_studio c = lm_studio c0 /\ ollama c = ollama c0).
Proof.
  split; [|split; [|split; [|split]]].
  - intros [h Hh] H. unfold main_config, from_env, lm_studio_factory, ollama_factory, environ_get.
    env_agree H. unfold int_of, float_of.
    destruct (py_int _); [|reflexivity].
    destruct (py_float _); [|reflexivity].
    destruct (py_float _); [|reflexivity].
    unfold apply_overrides. rewrite Hh.
    destruct (arg_port args), (arg_provider args); reflexivity.
  - intros [d Hd] H. unfold main_config, from_env, lm_studio_factory, ollama_factory, environ_get.
    env_agree H. unfold int_of, float_of.
    destruct (py_int _); [|reflexivity].
    destruct (py_float _); [|reflexivity].
    destruct (py_float _); [|reflexivity].
    unfold apply_overrides. rewrite Hd.
    destruct (arg_host args), (arg_port args); reflexivity.
  - intros [p Hp] H [z Hz] [z' Hz']. revert Hz Hz'.
    unfold main_config, from_env, lm_studio_factory, ollama_factory, environ_get.
    env_agree H. unfold int_of, float_of. intros Hz Hz'. rewrite Hz, Hz'.
    destruct (py_float _); [|reflexivity].
    destruct (py_float _); [|reflexivity].
    unfold apply_overrides. rewrite Hp.
    destruct (arg_host args), (arg_provider args); reflexivity.
  - intros m H. unfold main_config. rewrite (from_env_port_error _ _ _ _ H). reflexivity.
  - intros c H. unfold main_config in H.
    destruct (from_env environ py_int py_float) as [c0|e]; [|discriminate H].
    inversion H; subst c. exists c0. split; [reflexivity|].
    unfold apply_overrides.
    destruct (arg_host args), (arg_port args), (arg_provider args); split; reflexivity.
Qed.

Lemma cli_overrides_environment_witness :
  main_config host_env (w_py_int demo_world) demo_py_float (mk_cli_args (Some "0.0.0.0") None None)
  = main_config (fun n => if String.eqb n "OLLAMA_API_KEY" then Some "sk-unused" else None)
      (w_py_int demo_world) demo_py_float (mk_cli_args (Some "0.0.0.0") None None)
  /\ main_config (fun n => if String.eqb n "DARKTABLE_MCP_PORT" then Some "80x" else None)
       (w_py_int demo_world) demo_py_float (mk_cli_args None (Some 9000%Z) None)
     = Err (ValueError "invalid literal for int() with base 10: '80x'").
Proof.
  split.
  - apply (proj1 (cli_overrides_environment host_env
                    (fun n => if String.eqb n "OLLAMA_API_KEY" then Some "sk-unused" else None)
                    (w_py_int demo_world) demo_py_float (mk_cli_args (Some "0.0.0.0") None None))).
    + exists "0.0.0.0". reflexivity.
    + intros n Hn. unfold host_env.
      destruct (String.eqb_spec n "DARKTABLE_MCP_HOST"); [contradiction | reflexivity].
  - exact (proj1 (proj2 (proj2 (proj2 (cli_overrides_environment
                    (fun n => if String.eqb n "DARKTABLE_MCP_PORT" then Some "80x" else None)
                    (fun _ => None) (w_py_int demo_world) demo_py_float
                    (mk_cli_args None (Some 9000%Z) None)))))
             "invalid literal for int() with base 10: '80x'" eq_refl).
Defined.

(** A --provider value accepted by the parser's choices always resolves: in
    the configuration [main] builds, the default provider is that name and
    every request that names no provider is served by that client. *)
Theorem cli_provider_always_resolves (environ : string -> option string)
  (py_int : string -> Z + string) (py_float : string -> Q + string) (args : cli_args)
  (c : MCPServerConfig) (p : string)
  (Hp : arg_provider args = Some p) (Hchoice : In p provider_choices)
  (Hc : main_config environ py_int py_float args = Ok c) :
  default_provider c = p
  /\ forall v, truthy v = false -> exists cl, get_client c v = Ok (p, cl).
Proof.
  unfold main_config in Hc. destruct (from_env environ py_int py_float) as [c0|e]; [|discriminate Hc].
  inversion Hc; subst c. clear Hc.
  assert (Hd : default_provider (apply_overrides c0 (arg_host args) (arg_port args) (arg_provider args)) = p).
  { unfold apply_overrides. rewrite Hp. destruct (arg_host args), (arg_port args); reflexivity. }
  split; [exact Hd|].
  intros v Hv. rewrite get_client_falsy by exact Hv. rewrite Hd.
  destruct Hchoice as [<-|[<-|[]]]; eexists; reflexivity.
Qed.

Lemma cli_provider_always_resolves_witness :
  default_provider (apply_overrides default_config None None (Some "ollama")) = "ollama".
Proof.
  exact (proj1 (cli_provider_always_resolves (fun _ => None) (w_py_int demo_world) demo_py_float
                  (mk_cli_args None None (Some "ollama"))
                  (apply_overrides default_config None None (Some "ollama")) "ollama"
                  eq_refl ltac:(in_list) eq_refl)).
Defined.

(** *** base64 size *)

(** [encode_image_to_base64] turns n bytes into 4 * ceil(n / 3) characters. *)
Theorem b64encode_length (l : list Byte.byte) :
  String.length (b64encode l) = 4 * ((length l + 2) / 3).
Proof.
  unfold b64encode. rewrite length_string_of_list_ascii.
  revert l. fix IH 1. intros [|a [|b [|c rest]]]; try reflexivity.
  cbn [b64encode_chars length]. rewrite IH.
  replace (S (S (S (length rest))) + 2) with (length rest + 2 + 1 * 3) by lia.
  rewrite Nat.div_add by lia. lia.
Qed.
